(** * wheelie: reconciling a helm release against the cluster

    A shallow embedding of [pkg/wheelie/wheelie.go] and of the Ansible
    module that drives it.  Calls into helm, client-go and helm-diff are
    operations of an abstract backend; every call is recorded, with its
    answer, in a trace, and a nil pointer dereference is a panic. *)

From Stdlib Require Import ZArith Lia DecimalString.
From stdpp Require Import base option list strings gmap.

(** ** Go values *)

(** A Go [error] is known by its [Error()] text; [nil] is [None]. *)
Definition error : Type := string.

(** A [[]byte]: Rocq strings are sequences of 8-bit characters. *)
Definition bytes : Type := string.

(** Types of the imported packages that the program only passes around. *)
Class GoTypes : Type := {
  interface_ : Type;              (* interface{} *)
  chart_Chart : Type;             (* chart.Chart *)
  rest_Config : Type;             (* rest.Config *)
  kubernetes_Clientset : Type;    (* kubernetes.Clientset *)
  manifest_MappingResult : Type;  (* manifest.MappingResult *)
  release_Hook : Type;            (* release.Hook *)
}.

(** [strings.Contains s substr]. *)
Fixpoint strings_Contains (s substr : string) : bool :=
  String.prefix substr s ||
  match s with
  | EmptyString => false
  | String _ s' => strings_Contains s' substr
  end.

(** The verb [%d] of [fmt] on an integer. *)
Definition fmt_d (n : Z) : string := NilZero.string_of_int (Z.to_int n).

(** ** k8s.io/helm/pkg/proto/hapi/release *)
Module release.
Inductive Status_Code : Set :=
| Status_UNKNOWN
| Status_DEPLOYED
| Status_DELETED
| Status_SUPERSEDED
| Status_FAILED
| Status_DELETING
| Status_PENDING_INSTALL
| Status_PENDING_UPGRADE
| Status_PENDING_ROLLBACK.

#[global] Instance Status_Code_eq_dec : EqDecision Status_Code.
Proof. solve_decision. Defined.

Section Messages.
Context `{GoTypes}.

Record StatusMsg : Type := { Code : Status_Code }.

Record InfoMsg : Type := {
  Status : option StatusMsg;    (* *Status *)
  Description : string;
}.

Record ReleaseMsg : Type := {
  Name : string;
  Info : option InfoMsg;        (* *Info *)
  Manifest : string;
  Hooks : list release_Hook;
  Namespace : string;
}.
End Messages.
End release.

(** ** k8s.io/helm/pkg/proto/hapi/services

    The responses of [ReleaseContent], [InstallReleaseFromChart],
    [UpdateRelease] and [DeleteRelease] all carry a [Release] pointer, the
    only field the program reads. *)
Module rls.
Section Messages.
Context `{GoTypes}.

Record Response : Type := { Release : option release.ReleaseMsg }.
End Messages.
End rls.

(** ** k8s.io/helm/pkg/helm: options of the client and of its calls *)
Module helm.

Inductive Option : Type :=
| Host (host : string)
| ConnectTimeout (timeout : Z).

Inductive InstallOption : Type :=
| ValueOverrides (raw : bytes)
| ReleaseName (name : string)
| InstallDisableHooks (disable : bool)
| InstallDisableCRDHook (disable : bool)
| InstallTimeout (timeout : Z)
| InstallWait (wait : bool).

Inductive UpdateOption : Type :=
| UpdateValueOverrides (raw : bytes)
| UpgradeDisableHooks (disable : bool)
| UpgradeTimeout (timeout : Z)
| UpgradeWait (wait : bool)
| UpgradeForce (force : bool)
| UpgradeDryRun (dry : bool).

Inductive DeleteOption : Type :=
| DeleteDisableHooks (disable : bool)
| DeletePurge (purge : bool)
| DeleteTimeout (timeout : Z).

(** [helm.NewClient(opts...)] *)
Record Client : Type := NewClient { opts : list Option }.

(** What helm sends for an install: every option stores its argument in
    one field of the request, which starts out zeroed. *)
Record installReq : Type := {
  instValues : bytes;
  instName : string;
  instDisableHooks : bool;
  instDisableCRDHook : bool;
  instTimeout : Z;
  instWait : bool;
}.

Definition applyInstall (r : installReq) (o : InstallOption) : installReq :=
  match o with
  | ValueOverrides raw => {| instValues := raw; instName := instName r;
      instDisableHooks := instDisableHooks r;
      instDisableCRDHook := instDisableCRDHook r;
      instTimeout := instTimeout r; instWait := instWait r |}
  | ReleaseName n => {| instValues := instValues r; instName := n;
      instDisableHooks := instDisableHooks r;
      instDisableCRDHook := instDisableCRDHook r;
      instTimeout := instTimeout r; instWait := instWait r |}
  | InstallDisableHooks b => {| instValues := instValues r;
      instName := instName r; instDisableHooks := b;
      instDisableCRDHook := instDisableCRDHook r;
      instTimeout := instTimeout r; instWait := instWait r |}
  | InstallDisableCRDHook b => {| instValues := instValues r;
      instName := instName r; instDisableHooks := instDisableHooks r;
      instDisableCRDHook := b;
      instTimeout := instTimeout r; instWait := instWait r |}
  | InstallTimeout t => {| instValues := instValues r;
      instName := instName r; instDisableHooks := instDisableHooks r;
      instDisableCRDHook := instDisableCRDHook r;
      instTimeout := t; instWait := instWait r |}
  | InstallWait b => {| instValues := instValues r;
      instName := instName r; instDisableHooks := instDisableHooks r;
      instDisableCRDHook := instDisableCRDHook r;
      instTimeout := instTimeout r; instWait := b |}
  end.

Definition installRequest (os : list InstallOption) : installReq :=
  fold_left applyInstall os
    {| instValues := EmptyString; instName := EmptyString;
       instDisableHooks := false; instDisableCRDHook := false;
       instTimeout := 0%Z; instWait := false |}.

(** What helm sends for an upgrade. *)
Record updateReq : Type := {
  updValues : bytes;
  updDisableHooks : bool;
  updTimeout : Z;
  updWait : bool;
  updForce : bool;
  updDryRun : bool;
}.

Definition applyUpdate (r : updateReq) (o : UpdateOption) : updateReq :=
  match o with
  | UpdateValueOverrides raw => {| updValues := raw;
      updDisableHooks := updDisableHooks r; updTimeout := updTimeout r;
      updWait := updWait r; updForce := updForce r;
      updDryRun := updDryRun r |}
  | UpgradeDisableHooks b => {| updValues := updValues r;
      updDisableHooks := b; updTimeout := updTimeout r;
      updWait := updWait r; updForce := updForce r;
      updDryRun := updDryRun r |}
  | UpgradeTimeout t => {| updValues := updValues r;
      updDisableHooks := updDisableHooks r; updTimeout := t;
      updWait := updWait r; updForce := updForce r;
      updDryRun := updDryRun r |}
  | UpgradeWait b => {| updValues := updValues r;
      updDisableHooks := updDisableHooks r; updTimeout := updTimeout r;
      updWait := b; updForce := updForce r; updDryRun := updDryRun r |}
  | UpgradeForce b => {| updValues := updValues r;
      updDisableHooks := updDisableHooks r; updTimeout := updTimeout r;
      updWait := updWait r; updForce := b; updDryRun := updDryRun r |}
  | UpgradeDryRun b => {| updValues := updValues r;
      updDisableHooks := updDisableHooks r; updTimeout := updTimeout r;
      updWait := updWait r; updForce := updForce r; updDryRun := b |}
  end.

Definition updateRequest (os : list UpdateOption) : updateReq :=
  fold_left applyUpdate os
    {| updValues := EmptyString; updDisableHooks := false;
       updTimeout := 0%Z; updWait := false; updForce := false;
       updDryRun := false |}.

(** What helm sends for a delete. *)
Record deleteReq : Type := {
  delDisableHooks : bool;
  delPurge : bool;
  delTimeout : Z;
}.

Definition applyDelete (r : deleteReq) (o : DeleteOption) : deleteReq :=
  match o with
  | DeleteDisableHooks b => {| delDisableHooks := b;
      delPurge := delPurge r; delTimeout := delTimeout r |}
  | DeletePurge b => {| delDisableHooks := delDisableHooks r;
      delPurge := b; delTimeout := delTimeout r |}
  | DeleteTimeout t => {| delDisableHooks := delDisableHooks r;
      delPurge := delPurge r; delTimeout := t |}
  end.

Definition deleteRequest (os : list DeleteOption) : deleteReq :=
  fold_left applyDelete os
    {| delDisableHooks := false; delPurge := false; delTimeout := 0%Z |}.

End helm.

(** ** The world outside the process *)

Section World.
Context `{GoTypes}.

(** [map[string]interface{}]: [None] is the nil map. *)
Definition map_string_interface : Type :=
  option (gmap string interface_).

(** [map[string]*manifest.MappingResult] *)
Definition Manifests : Type := gmap string manifest_MappingResult.

(** [kube.Tunnel], of which only the local port is read. *)
Record kube_Tunnel : Type := { Local : Z }.

(** One call that left the process, with what came back. *)
Inductive Call : Type :=
| CallArgs (args : list string)
| CallReadFile (path : string) (text : bytes) (err : option error)
| CallPrintln (line : string)
| CallClientConfig (context kubeconfig : string)
    (config : option rest_Config) (err : option error)
| CallNewForConfig (config : option rest_Config)
    (client : option kubernetes_Clientset) (err : option error)
| CallPortforwarderNew (namespace : string)
    (client : option kubernetes_Clientset) (config : option rest_Config)
    (forwarder : option kube_Tunnel) (err : option error)
| CallLoad (path : string) (chart : option chart_Chart)
    (err : option error)
| CallReleaseContent (client : helm.Client) (name : string)
    (res : option rls.Response) (err : option error)
| CallInstall (client : helm.Client) (chart : option chart_Chart)
    (namespace : string) (os : list helm.InstallOption)
    (res : option rls.Response) (err : option error)
| CallUpdate (client : helm.Client) (name chartPath : string)
    (os : list helm.UpdateOption)
    (res : option rls.Response) (err : option error)
| CallDelete (client : helm.Client) (name : string)
    (os : list helm.DeleteOption)
    (res : option rls.Response) (err : option error)
| CallDiff (current new : Manifests) (hasChanges : bool).

(** The packages the program calls.  An operation that reaches the file
    system, the cluster or tiller reads and changes a state [S] the
    program cannot see; the others are functions. *)
Set Implicit Arguments.
Record Backend (S : Type) : Type := {
  os_Args : S -> list string * S;
  ioutil_ReadFile : string -> S -> (bytes * option error) * S;
  fmt_Println : string -> S -> unit * S;
  kube_GetConfig_ClientConfig :
    string -> string -> S -> (option rest_Config * option error) * S;
  kubernetes_NewForConfig :
    option rest_Config -> S ->
    (option kubernetes_Clientset * option error) * S;
  portforwarder_New :
    string -> option kubernetes_Clientset -> option rest_Config -> S ->
    (option kube_Tunnel * option error) * S;
  chartutil_Load : string -> S -> (option chart_Chart * option error) * S;
  helm_ReleaseContent :
    helm.Client -> string -> S -> (option rls.Response * option error) * S;
  helm_InstallReleaseFromChart :
    helm.Client -> option chart_Chart -> string ->
    list helm.InstallOption -> S ->
    (option rls.Response * option error) * S;
  helm_UpdateRelease :
    helm.Client -> string -> string -> list helm.UpdateOption -> S ->
    (option rls.Response * option error) * S;
  helm_DeleteRelease :
    helm.Client -> string -> list helm.DeleteOption -> S ->
    (option rls.Response * option error) * S;
  diff_DiffManifests : Manifests -> Manifests -> S -> bool * S;
  manifest_Parse : string -> string -> Manifests;
  manifest_ParseRelease : release.ReleaseMsg -> Manifests;
  json_Marshal : map_string_interface -> bytes * option error;
  strconv_Quote : string -> string;   (* the verb %q of fmt *)
}.
Unset Implicit Arguments.

(** *** Computations

    A computation runs from a backend state to an answer, the state it
    leaves and the calls it made, oldest first.  The answer [None] is a
    Go panic: the calls made until then stay in the trace. *)
Definition M (S A : Type) : Type := S -> option A * S * list Call.

Definition ret {S A} (a : A) : M S A := fun s => (Some a, s, []).

Definition bind {S A B} (m : M S A) (k : A -> M S B) : M S B :=
  fun s =>
    match m s with
    | (Some a, s1, t1) =>
        match k a s1 with
        | (b, s2, t2) => (b, s2, t1 ++ t2)
        end
    | (None, s1, t1) => (None, s1, t1)
    end.

Definition panic {S A} : M S A := fun s => (None, s, []).

(** Following a pointer: nil panics. *)
Definition deref {S A} (p : option A) : M S A :=
  fun s =>
    match p with
    | Some a => (Some a, s, [])
    | None => (None, s, [])
    end.

(** One call to the backend, recorded with its answer. *)
Definition perform {S R} (op : S -> R * S) (log : R -> Call) : M S R :=
  fun s => match op s with (r, s') => (Some r, s', [log r]) end.

Definition answer {S A} (x : option A * S * list Call) : option A :=
  x.1.1.
Definition calls {S A} (x : option A * S * list Call) : list Call :=
  x.2.

End World.

Notation "'let*' x ':=' m 'in' k" := (bind m (fun x => k))
  (at level 10, x pattern, m at level 100, k at level 200).

(** ** package wheelie *)
Module wheelie.
Section Wheelie.
Context `{GoTypes} {S : Type} (B : Backend S).

(** Wheelie uses the helm API to ensure a release is present, absent, or
    purged. *)
Record Wheelie : Type := {
  Kubeconfig : string;
  KubeContext : string;
  Chart : string;
  ChartVersion : string;
  Values : map_string_interface;
  NoHooks : bool;
  NoCRDHook : bool;
  Timeout : Z;
  Release : string;
  Namespace : string;
  Wait : bool;
  TillerNamespace : string;
  TillerHost : string;
  TillerTimeout : Z;
}.

Definition setTillerHost (w : Wheelie) (host : string) : Wheelie :=
  {| Kubeconfig := Kubeconfig w; KubeContext := KubeContext w;
     Chart := Chart w; ChartVersion := ChartVersion w;
     Values := Values w; NoHooks := NoHooks w; NoCRDHook := NoCRDHook w;
     Timeout := Timeout w; Release := Release w;
     Namespace := Namespace w; Wait := Wait w;
     TillerNamespace := TillerNamespace w; TillerHost := host;
     TillerTimeout := TillerTimeout w |}.

(** What an Ensure method returns: message, changed, error. *)
Definition Result : Type := string * bool * option error.

(** [storageerrors.ErrReleaseNotFound(release)], which helm builds with
    [fmt.Errorf("release: %q not found", release)]. *)
Definition ErrReleaseNotFound (release : string) : error :=
  "release: " +:+ strconv_Quote B release +:+ " not found".

(** [err != nil && strings.Contains(err.Error(),
    storageerrors.ErrReleaseNotFound(release).Error())] *)
Definition isNotFound (err : option error) (release : string) : bool :=
  match err with
  | Some e => strings_Contains e (ErrReleaseNotFound release)
  | None => false
  end.

(** [res.Release.Info.Description]; [None] when a pointer on the way is
    nil. *)
Definition description (res : option rls.Response) : option string :=
  r ← res;
  rel ← rls.Release r;
  info ← release.Info rel;
  Some (release.Description info).

(** [res.Release.Info.Status.Code] *)
Definition statusCode (res : option rls.Response)
  : option release.Status_Code :=
  r ← res;
  rel ← rls.Release r;
  info ← release.Info rel;
  st ← release.Status info;
  Some (release.Code st).

(** [manifest.Parse(res.Release.Manifest, res.Release.Namespace)] *)
Definition parseManifest (res : option rls.Response) : option Manifests :=
  r ← res;
  rel ← rls.Release r;
  Some (manifest_Parse B (release.Manifest rel) (release.Namespace rel)).

(** [manifest.ParseRelease(res.Release)], which reads the fields of the
    release it is given: a nil release is a nil dereference as well. *)
Definition parseRelease (res : option rls.Response) : option Manifests :=
  r ← res;
  rel ← rls.Release r;
  Some (manifest_ParseRelease B rel).

(** ForwardTillerPort creates a tunnel from localhost to the tiller pod
    and sets the struct's TillerHost field to 127.0.0.1:<port>.  The
    receiver is a pointer: the struct comes back with the error. *)
Definition ForwardTillerPort (w : Wheelie) : M S (Wheelie * option error) :=
  let* (config, err) :=
    perform (kube_GetConfig_ClientConfig B (KubeContext w) (Kubeconfig w))
      (fun r => CallClientConfig (KubeContext w) (Kubeconfig w) r.1 r.2) in
  match err with
  | Some e =>
      ret (w, Some ("could not get Kubernetes config for context " +:+
                    strconv_Quote B (KubeContext w) +:+ ": " +:+ e))
  | None =>
  let* (client, err) :=
    perform (kubernetes_NewForConfig B config)
      (fun r => CallNewForConfig config r.1 r.2) in
  match err with
  | Some e => ret (w, Some ("could not get Kubernetes client: " +:+ e))
  | None =>
  let* (forwarder, err) :=
    perform (portforwarder_New B (TillerNamespace w) client config)
      (fun r => CallPortforwarderNew (TillerNamespace w) client config
                  r.1 r.2) in
  match err with
  | Some e => ret (w, Some e)
  | None =>
  let* f := deref forwarder in
  ret (setTillerHost w ("127.0.0.1:" +:+ fmt_d (Local f)), None)
  end end end.

(** The client both Ensure methods build from the struct. *)
Definition newClient (w : Wheelie) : helm.Client :=
  let helmOptions :=
    [helm.Host (TillerHost w); helm.ConnectTimeout (TillerTimeout w)] in
  helm.NewClient helmOptions.

Definition ReleaseContent (client : helm.Client) (name : string)
  : M S (option rls.Response * option error) :=
  perform (helm_ReleaseContent B client name)
    (fun r => CallReleaseContent client name r.1 r.2).

Definition InstallReleaseFromChart (client : helm.Client)
    (chart : option chart_Chart) (namespace : string)
    (os : list helm.InstallOption)
  : M S (option rls.Response * option error) :=
  perform (helm_InstallReleaseFromChart B client chart namespace os)
    (fun r => CallInstall client chart namespace os r.1 r.2).

Definition UpdateRelease (client : helm.Client) (name chartPath : string)
    (os : list helm.UpdateOption)
  : M S (option rls.Response * option error) :=
  perform (helm_UpdateRelease B client name chartPath os)
    (fun r => CallUpdate client name chartPath os r.1 r.2).

Definition DeleteRelease (client : helm.Client) (name : string)
    (os : list helm.DeleteOption)
  : M S (option rls.Response * option error) :=
  perform (helm_DeleteRelease B client name os)
    (fun r => CallDelete client name os r.1 r.2).

(** EnsureReleasePresent ensures a release is present according to the
    following rules: if the release is not found, it is installed; if it
    is found but in a deleted state, it is force updated; if it is
    otherwise present, a dry-run update is performed and its output is
    compared to the existing release; if there are differences, the
    update is performed without dry-run set. *)
Definition EnsureReleasePresent (w : Wheelie) : M S Result :=
  let chartPath := Chart w in
  let* (chart, err) :=
    perform (chartutil_Load B chartPath)
      (fun r => CallLoad chartPath r.1 r.2) in
  match err with
  | Some _ => ret (EmptyString, false, err)
  | None =>
  let '(rawVals, err) := json_Marshal B (Values w) in
  match err with
  | Some _ => ret (EmptyString, false, err)
  | None =>
  let client := newClient w in
  let* (releaseResponse, err) := ReleaseContent client (Release w) in
  if isNotFound err (Release w) then
    (* Release doesn't exist, will install *)
    let* (res, err) :=
      InstallReleaseFromChart client chart (Namespace w)
        [helm.ValueOverrides rawVals;
         helm.ReleaseName (Release w);
         helm.InstallDisableHooks (NoHooks w);
         helm.InstallDisableCRDHook (NoCRDHook w);
         helm.InstallTimeout (Timeout w);
         helm.InstallWait (Wait w)] in
    match err with
    | Some _ => ret (EmptyString, false, err)
    | None =>
        let* d := deref (description res) in
        ret (d, true, None)
    end
  else
  let* code := deref (statusCode releaseResponse) in
  if bool_decide (code = release.Status_DELETED) then
    (* Release exists in deleted state, will force update *)
    let* (res, err) :=
      UpdateRelease client (Release w) chartPath
        [helm.UpdateValueOverrides rawVals;
         helm.UpgradeDisableHooks (NoHooks w);
         helm.UpgradeTimeout (Timeout w);
         helm.UpgradeWait (Wait w);
         helm.UpgradeForce true] in
    match err with
    | Some _ => ret (EmptyString, false, err)
    | None =>
        let* d := deref (description res) in
        ret (d, true, None)
    end
  else
  (* Do a dry-run update to check the response for any differences
     between desired and actual state. *)
  let* (dryRunResponse, err) :=
    UpdateRelease client (Release w) chartPath
      [helm.UpdateValueOverrides rawVals;
       helm.UpgradeDisableHooks (NoHooks w);
       helm.UpgradeTimeout (Timeout w);
       helm.UpgradeDryRun true] in
  match err with
  | Some _ => ret (EmptyString, false, err)
  | None =>
  (* Use helm-diff to check the difference between desired and actual
     state. *)
  let* (currentManifests, newManifests) :=
    if NoHooks w then
      let* c := deref (parseManifest releaseResponse) in
      let* n := deref (parseManifest dryRunResponse) in
      ret (c, n)
    else
      let* c := deref (parseRelease releaseResponse) in
      let* n := deref (parseRelease dryRunResponse) in
      ret (c, n) in
  let* hasChanges :=
    perform (diff_DiffManifests B currentManifests newManifests)
      (CallDiff currentManifests newManifests) in
  if hasChanges then
    let* (res, err) :=
      UpdateRelease client (Release w) chartPath
        [helm.UpdateValueOverrides rawVals;
         helm.UpgradeDisableHooks (NoHooks w);
         helm.UpgradeTimeout (Timeout w);
         helm.UpgradeWait (Wait w)] in
    match err with
    | Some _ => ret (EmptyString, false, err)
    | None =>
        let* d := deref (description res) in
        ret (d, true, None)
    end
  else ret (EmptyString, false, None)
  end end end.

Definition ensureReleaseAbsent (w : Wheelie) (purge : bool) : M S Result :=
  let client := newClient w in
  let* (releaseResponse, err) := ReleaseContent client (Release w) in
  if isNotFound err (Release w) then ret (EmptyString, false, None)
  else
  let* code := deref (statusCode releaseResponse) in
  if bool_decide (code = release.Status_DELETED) && negb purge
  then ret (EmptyString, false, None)
  else
  let opts :=
    [helm.DeleteDisableHooks (NoHooks w);
     helm.DeletePurge purge;
     helm.DeleteTimeout (Timeout w)] in
  let* (_, err) := DeleteRelease client (Release w) opts in
  match err with
  | Some _ => ret (EmptyString, false, err)
  | None =>
      let msg := "release " +:+ Release w +:+ " deleted" in
      ret (msg, true, None)
  end.

(** EnsureReleaseAbsent deletes the helm release without the
    [DeletePurge] option set. *)
Definition EnsureReleaseAbsent (w : Wheelie) : M S Result :=
  ensureReleaseAbsent w false.

(** EnsureReleasePurged deletes the helm release with the [DeletePurge]
    option set. *)
Definition EnsureReleasePurged (w : Wheelie) : M S Result :=
  ensureReleaseAbsent w true.

End Wheelie.
End wheelie.

(** ** package ansible: the helm module *)
Module ansible.
Section Ansible.
Context `{GoTypes} {S : Type} (B : Backend S).

Definition statePresent : string := "present".
Definition stateAbsent : string := "absent".
Definition statePurged : string := "purged".

(** ModuleInput is the input passed by Ansible in the module
    declaration. *)
Record ModuleInput : Type := {
  Kubeconfig : string;
  Chart : string;
  ChartVersion : string;
  Values : map_string_interface;
  NoHooks : bool;
  NoCRDHook : bool;
  Timeout : Z;
  Release : string;
  Namespace : string;
  State : string;
  TillerNamespace : string;
  Wait : bool;
}.

(** ModuleInvocation shows the input to the module. *)
Record ModuleInvocation : Type := { ModuleArgs : ModuleInput }.

(** ModuleOutput is the output from the module to Ansible. *)
Record ModuleOutput : Type := {
  Msg : string;
  Changed : bool;
  Failed : bool;
  Invocation : ModuleInvocation;
}.

(** HelmModule is the Ansible helm module. *)
Record HelmModule : Type := {
  Input : ModuleInput;
  Output : ModuleOutput;
}.

(** [encoding/json] at the module's two types.  [Unmarshal] writes into
    the value it is given and may leave it changed when it fails. *)
Record Codec : Type := {
  json_Unmarshal : bytes -> ModuleInput -> ModuleInput * option error;
  json_MarshalOutput : ModuleOutput -> bytes * option error;
}.
Context (J : Codec).

(** *** Assignments to single fields *)

Definition setState (i : ModuleInput) (v : string) : ModuleInput :=
  {| Kubeconfig := Kubeconfig i; Chart := Chart i;
     ChartVersion := ChartVersion i; Values := Values i;
     NoHooks := NoHooks i; NoCRDHook := NoCRDHook i;
     Timeout := Timeout i; Release := Release i;
     Namespace := Namespace i; State := v;
     TillerNamespace := TillerNamespace i; Wait := Wait i |}.

Definition setNamespace (i : ModuleInput) (v : string) : ModuleInput :=
  {| Kubeconfig := Kubeconfig i; Chart := Chart i;
     ChartVersion := ChartVersion i; Values := Values i;
     NoHooks := NoHooks i; NoCRDHook := NoCRDHook i;
     Timeout := Timeout i; Release := Release i;
     Namespace := v; State := State i;
     TillerNamespace := TillerNamespace i; Wait := Wait i |}.

Definition setTimeout (i : ModuleInput) (v : Z) : ModuleInput :=
  {| Kubeconfig := Kubeconfig i; Chart := Chart i;
     ChartVersion := ChartVersion i; Values := Values i;
     NoHooks := NoHooks i; NoCRDHook := NoCRDHook i;
     Timeout := v; Release := Release i;
     Namespace := Namespace i; State := State i;
     TillerNamespace := TillerNamespace i; Wait := Wait i |}.

Definition setValues (i : ModuleInput) (v : map_string_interface)
  : ModuleInput :=
  {| Kubeconfig := Kubeconfig i; Chart := Chart i;
     ChartVersion := ChartVersion i; Values := v;
     NoHooks := NoHooks i; NoCRDHook := NoCRDHook i;
     Timeout := Timeout i; Release := Release i;
     Namespace := Namespace i; State := State i;
     TillerNamespace := TillerNamespace i; Wait := Wait i |}.

Definition setTillerNamespace (i : ModuleInput) (v : string)
  : ModuleInput :=
  {| Kubeconfig := Kubeconfig i; Chart := Chart i;
     ChartVersion := ChartVersion i; Values := Values i;
     NoHooks := NoHooks i; NoCRDHook := NoCRDHook i;
     Timeout := Timeout i; Release := Release i;
     Namespace := Namespace i; State := State i;
     TillerNamespace := v; Wait := Wait i |}.

Definition setInput (m : HelmModule) (i : ModuleInput) : HelmModule :=
  {| Input := i; Output := Output m |}.

Definition setOutput (m : HelmModule) (o : ModuleOutput) : HelmModule :=
  {| Input := Input m; Output := o |}.

(** The zero value of [ModuleInput]. *)
Definition zeroInput : ModuleInput :=
  {| Kubeconfig := EmptyString; Chart := EmptyString;
     ChartVersion := EmptyString; Values := None; NoHooks := false;
     NoCRDHook := false; Timeout := 0; Release := EmptyString;
     Namespace := EmptyString; State := EmptyString;
     TillerNamespace := EmptyString; Wait := false |}.

(** [ModuleOutput{Msg: msg}] *)
Definition outputWithMsg (msg : string) : ModuleOutput :=
  {| Msg := msg; Changed := false; Failed := false;
     Invocation := {| ModuleArgs := zeroInput |} |}.

(** *** The module *)

Definition setDefaultInputs (m : HelmModule) : HelmModule :=
  let m :=
    if bool_decide (State (Input m) = EmptyString)
    then setInput m (setState (Input m) "present") else m in
  let m :=
    if bool_decide (Namespace (Input m) = EmptyString)
    then setInput m (setNamespace (Input m) "default") else m in
  let m :=
    if bool_decide (Timeout (Input m) = 0%Z)
    then setInput m (setTimeout (Input m) 300) else m in
  let m :=
    match Values (Input m) with
    | None => setInput m (setValues (Input m) (Some ∅))
    | Some _ => m
    end in
  let m :=
    if bool_decide (TillerNamespace (Input m) = EmptyString)
    then setInput m (setTillerNamespace (Input m) "kube-system")
    else m in
  m.

Definition respondJSON (m : HelmModule) : M S HelmModule :=
  let m :=
    setOutput m
      {| Msg := Msg (Output m); Changed := Changed (Output m);
         Failed := Failed (Output m);
         Invocation := {| ModuleArgs := Input m |} |} in
  let '(responseBytes, err) := json_MarshalOutput J (Output m) in
  let responseBytes :=
    match err with
    | Some e =>
        (json_MarshalOutput J
           (outputWithMsg ("unexpected output: " +:+ e))).1
    | None => responseBytes
    end in
  let* _ := perform (fmt_Println B responseBytes)
              (fun _ => CallPrintln responseBytes) in
  ret m.

Definition succeed (m : HelmModule) (msg : string) (changed : bool)
  : M S HelmModule :=
  let m :=
    setOutput m
      {| Msg := msg; Changed := changed; Failed := Failed (Output m);
         Invocation := Invocation (Output m) |} in
  respondJSON m.

Definition fail (m : HelmModule) (msg : string) : M S HelmModule :=
  let m :=
    setOutput m
      {| Msg := msg; Changed := Changed (Output m); Failed := true;
         Invocation := Invocation (Output m) |} in
  respondJSON m.

(** The error of the default case of the switch in [Run]. *)
Definition stateError : error :=
  "state must be one of '" +:+ statePresent +:+ "', '" +:+ stateAbsent
  +:+ "', or '" +:+ statePurged +:+ "'".

(** Run acts as the main function for executing the Ansible module. *)
Definition Run (m : HelmModule) : M S HelmModule :=
  let* args := perform (os_Args B) CallArgs in
  let nargs := Z.of_nat (length args) in
  if bool_decide (nargs ≠ 2%Z) then
    fail m ("expected 2 arguments to module, got " +:+ fmt_d nargs)
  else
  let* inputFile := deref (args !! 1%nat) in
  let* (text, err) :=
    perform (ioutil_ReadFile B inputFile)
      (fun r => CallReadFile inputFile r.1 r.2) in
  match err with
  | Some e => fail m ("error reading input: " +:+ e)
  | None =>
  let '(input, err) := json_Unmarshal J text (Input m) in
  let m := setInput m input in
  match err with
  | Some e => fail m ("unable to parse input: " +:+ e)
  | None =>
  let m := setDefaultInputs m in
  let w :=
    {| wheelie.Kubeconfig := Kubeconfig (Input m);
       wheelie.KubeContext := EmptyString;
       wheelie.Chart := Chart (Input m);
       wheelie.ChartVersion := ChartVersion (Input m);
       wheelie.Values := Values (Input m);
       wheelie.NoHooks := NoHooks (Input m);
       wheelie.NoCRDHook := NoCRDHook (Input m);
       wheelie.Timeout := Timeout (Input m);
       wheelie.Release := Release (Input m);
       wheelie.Namespace := Namespace (Input m);
       wheelie.Wait := Wait (Input m);
       wheelie.TillerNamespace := TillerNamespace (Input m);
       wheelie.TillerHost := EmptyString;
       wheelie.TillerTimeout := 300 |} in
  let* (w, err) := wheelie.ForwardTillerPort B w in
  match err with
  | Some e => fail m ("unable to forward tiller port: " +:+ e)
  | None =>
  let* (msg, changed, err) :=
    if bool_decide (State (Input m) = statePresent) then
      wheelie.EnsureReleasePresent B w
    else if bool_decide (State (Input m) = stateAbsent) then
      wheelie.EnsureReleaseAbsent B w
    else if bool_decide (State (Input m) = statePurged) then
      wheelie.EnsureReleasePurged B w
    else
      ret (EmptyString, false, Some stateError) in
  match err with
  | Some e => fail m e
  | None => succeed m msg changed
  end end end end.

End Ansible.
End ansible.

(** ** Reading a trace *)

Section Trace.
Context `{GoTypes}.

Definition isLoad (c : Call) : bool :=
  match c with CallLoad _ _ _ => true | _ => false end.

Definition isReleaseContent (c : Call) : bool :=
  match c with CallReleaseContent _ _ _ _ => true | _ => false end.

Definition isInstall (c : Call) : bool :=
  match c with CallInstall _ _ _ _ _ _ => true | _ => false end.

Definition isUpdate (c : Call) : bool :=
  match c with CallUpdate _ _ _ _ _ _ => true | _ => false end.

Definition isDelete (c : Call) : bool :=
  match c with CallDelete _ _ _ _ _ => true | _ => false end.

(** An upgrade with the dry-run flag: the trial. *)
Definition isTrial (c : Call) : bool :=
  match c with
  | CallUpdate _ _ _ os _ _ => helm.updDryRun (helm.updateRequest os)
  | _ => false
  end.

(** An upgrade that commits, with and without force. *)
Definition isForcedUpgrade (c : Call) : bool :=
  match c with
  | CallUpdate _ _ _ os _ _ =>
      negb (helm.updDryRun (helm.updateRequest os)) &&
      helm.updForce (helm.updateRequest os)
  | _ => false
  end.

Definition isPlainUpgrade (c : Call) : bool :=
  match c with
  | CallUpdate _ _ _ os _ _ =>
      negb (helm.updDryRun (helm.updateRequest os)) &&
      negb (helm.updForce (helm.updateRequest os))
  | _ => false
  end.

(** The calls that change the backend. *)
Definition isMutation (c : Call) : bool :=
  isInstall c || isForcedUpgrade c || isPlainUpgrade c || isDelete c.

(** The calls that set up the connection to tiller. *)
Definition isProvisioning (c : Call) : bool :=
  match c with
  | CallClientConfig _ _ _ _ | CallNewForConfig _ _ _
  | CallPortforwarderNew _ _ _ _ _ => true
  | _ => false
  end.

(** The error a call to helm came back with. *)
Definition callError (c : Call) : option error :=
  match c with
  | CallInstall _ _ _ _ _ err | CallUpdate _ _ _ _ _ err
  | CallDelete _ _ _ _ err | CallReleaseContent _ _ _ err => err
  | _ => None
  end.

(** The response a call to helm came back with. *)
Definition callResponse (c : Call) : option rls.Response :=
  match c with
  | CallInstall _ _ _ _ res _ | CallUpdate _ _ _ _ res _
  | CallDelete _ _ _ res _ | CallReleaseContent _ _ res _ => res
  | _ => None
  end.

(** A mutation that ran and came back without an error. *)
Definition isSuccessfulMutation (c : Call) : bool :=
  isMutation c &&
  match callError c with None => true | Some _ => false end.

Definition count (p : Call -> bool) (t : list Call) : nat :=
  length (List.filter p t).


End Trace.

(** ** What normalization establishes *)

Section Populated.
Context `{GoTypes}.

(** Every field that setDefaultInputs may fill is filled afterwards. *)
Definition populated (i : ansible.ModuleInput) : Prop :=
  ansible.State i ≠ EmptyString ∧
  ansible.Namespace i ≠ EmptyString ∧
  ansible.Timeout i ≠ 0%Z ∧
  ansible.Values i ≠ None ∧
  ansible.TillerNamespace i ≠ EmptyString.

End Populated.

(** ** A scripted backend

    A cluster that answers every call as its script says, for running the
    program on concrete inputs. *)

Module script.

#[local] Instance types : GoTypes := {|
  interface_ := Z;
  chart_Chart := string;
  rest_Config := string;
  kubernetes_Clientset := string;
  manifest_MappingResult := string;
  release_Hook := string;
|}.

(** The verb [%q] on a string with nothing to escape. *)
Definition quote (s : string) : string :=
  let q := Ascii.ascii_of_nat 34 in
  String q (s +:+ String q EmptyString).

(** A response carrying a release in the given status. *)
Definition released (code : release.Status_Code) (manifest desc : string)
  : option rls.Response :=
  Some {| rls.Release := Some {|
    release.Name := "web";
    release.Info := Some {|
      release.Status := Some {| release.Code := code |};
      release.Description := desc |};
    release.Manifest := manifest;
    release.Hooks := [];
    release.Namespace := "default" |} |}.

Record Script : Type := {
  parsed : ansible.ModuleInput;
  tunnel : option kube_Tunnel * option error;
  read : option rls.Response * option error;
  trial : option rls.Response * option error;
  commit : option rls.Response * option error;
  differ : bool;
}.

Definition backend (sc : Script) : Backend unit := {|
  os_Args := λ s, (["helm"; "/tmp/args.json"], s);
  ioutil_ReadFile := λ _ s, ("{}", None, s);
  fmt_Println := λ _ s, (tt, s);
  kube_GetConfig_ClientConfig := λ _ _ s, (Some "config", None, s);
  kubernetes_NewForConfig := λ _ s, (Some "client", None, s);
  portforwarder_New := λ _ _ _ s, (tunnel sc, s);
  chartutil_Load := λ path s, (Some path, None, s);
  helm_ReleaseContent := λ _ _ s, (read sc, s);
  helm_InstallReleaseFromChart := λ _ _ _ _ s, (commit sc, s);
  helm_UpdateRelease := λ _ _ _ os s,
    (if helm.updDryRun (helm.updateRequest os) then trial sc
     else commit sc, s);
  helm_DeleteRelease := λ _ _ _ s, (commit sc, s);
  diff_DiffManifests := λ _ _ s, (differ sc, s);
  manifest_Parse := λ manifest _, {[ "web" := manifest ]};
  manifest_ParseRelease := λ rel, {[ "web" := release.Manifest rel ]};
  json_Marshal := λ _, ("{}", None);
  strconv_Quote := quote;
|}.

Definition codec (sc : Script) : ansible.Codec := {|
  ansible.json_Unmarshal := λ _ _, (parsed sc, None);
  ansible.json_MarshalOutput := λ o, (ansible.Msg o, None);
|}.

(** The release "web", to be present. *)
Definition web : wheelie.Wheelie := {|
  wheelie.Kubeconfig := "/root/.kube/config";
  wheelie.KubeContext := EmptyString;
  wheelie.Chart := "/charts/web";
  wheelie.ChartVersion := EmptyString;
  wheelie.Values := Some {[ "replicas" := 3%Z ]};
  wheelie.NoHooks := false;
  wheelie.NoCRDHook := false;
  wheelie.Timeout := 300;
  wheelie.Release := "web";
  wheelie.Namespace := "default";
  wheelie.Wait := true;
  wheelie.TillerNamespace := "kube-system";
  wheelie.TillerHost := EmptyString;
  wheelie.TillerTimeout := 300;
|}.

Definition input (state : string) : ansible.ModuleInput := {|
  ansible.Kubeconfig := "/root/.kube/config";
  ansible.Chart := "/charts/web";
  ansible.ChartVersion := EmptyString;
  ansible.Values := None;
  ansible.NoHooks := false;
  ansible.NoCRDHook := false;
  ansible.Timeout := 0;
  ansible.Release := "web";
  ansible.Namespace := EmptyString;
  ansible.State := state;
  ansible.TillerNamespace := EmptyString;
  ansible.Wait := true;
|}.

Definition module : ansible.HelmModule := {|
  ansible.Input := ansible.zeroInput;
  ansible.Output := ansible.outputWithMsg EmptyString;
|}.


Definition unavailable : error :=
  "rpc error: code = Unavailable desc = transport is closing".

Definition forwarded : option kube_Tunnel * option error :=
  (Some {| Local := 44134 |}, None).

Definition deployed (desc : string) : option rls.Response * option error :=
  (released release.Status_DEPLOYED "replicas: 3" desc, None).



(** The release is deployed with two replicas, three are wanted; the
    upgrade goes through. *)
Definition driftThenUpgraded : Script := {|
  parsed := input "present";
  tunnel := forwarded;
  read := deployed "Install complete";
  trial := deployed "Dry run complete";
  commit := deployed "Upgrade complete";
  differ := true;
|}.

(** The same drift, but the upgrade fails. *)
Definition driftThenFailed : Script := {|
  parsed := input "present";
  tunnel := forwarded;
  read := deployed "Install complete";
  trial := deployed "Dry run complete";
  commit := (None, Some "timed out waiting for the condition");
  differ := true;
|}.

(** The release is deployed; the delete goes through. *)
Definition deployedThenDeleted : Script := {|
  parsed := input "absent";
  tunnel := forwarded;
  read := deployed "Install complete";
  trial := (None, Some unavailable);
  commit := (Some {| rls.Release := None |}, None);
  differ := false;
|}.

(** Tiller cannot be reached when the release is read. *)
Definition unreachable : Script := {|
  parsed := input "present";
  tunnel := forwarded;
  read := (None, Some unavailable);
  trial := (None, Some unavailable);
  commit := (None, Some unavailable);
  differ := false;
|}.

(** The input asks for a state that does not exist. *)
Definition destroyed : Script := {|
  parsed := input "destroyed";
  tunnel := forwarded;
  read := deployed "Install complete";
  trial := deployed "Dry run complete";
  commit := deployed "Upgrade complete";
  differ := false;
|}.

(** Tiller has no pod to forward to. *)
Definition tillerDown : Script := {|
  parsed := input "present";
  tunnel := (None, Some "could not find tiller");
  read := (None, Some unavailable);
  trial := (None, Some unavailable);
  commit := (None, Some unavailable);
  differ := false;
|}.

(** The release "web" with a chart version and another kubeconfig. *)
Definition pinned : wheelie.Wheelie := {|
  wheelie.Kubeconfig := "/etc/kube/config";
  wheelie.KubeContext := "staging";
  wheelie.Chart := "/charts/web";
  wheelie.ChartVersion := "1.2.3";
  wheelie.Values := Some {[ "replicas" := 3%Z ]};
  wheelie.NoHooks := false;
  wheelie.NoCRDHook := false;
  wheelie.Timeout := 300;
  wheelie.Release := "web";
  wheelie.Namespace := "default";
  wheelie.Wait := true;
  wheelie.TillerNamespace := "tiller";
  wheelie.TillerHost := EmptyString;
  wheelie.TillerTimeout := 300;
|}.

End script.

(** ** Reading a trace, continued *)

Section Calls.
Context `{GoTypes}.

Definition isPrintln (c : Call) : bool :=
  match c with CallPrintln _ => true | _ => false end.

Definition isDiff (c : Call) : bool :=
  match c with CallDiff _ _ _ => true | _ => false end.

(** The calls that go to tiller through the helm client. *)
Definition isHelm (c : Call) : bool :=
  isReleaseContent c || isInstall c || isUpdate c || isDelete c.

(** The calls a reconciliation may make. *)
Definition isReconcile (c : Call) : bool :=
  isLoad c || isHelm c || isDiff c.

(** The client a call to tiller went through. *)
Definition callClient (c : Call) : option helm.Client :=
  match c with
  | CallReleaseContent cl _ _ _ | CallInstall cl _ _ _ _ _
  | CallUpdate cl _ _ _ _ _ | CallDelete cl _ _ _ _ => Some cl
  | _ => None
  end.

(** The release a call to tiller is about: the name it is given, for an
    install the name among its options. *)
Definition callRelease (c : Call) : option string :=
  match c with
  | CallReleaseContent _ n _ _ | CallUpdate _ n _ _ _ _
  | CallDelete _ n _ _ _ => Some n
  | CallInstall _ _ _ os _ _ => Some (helm.instName (helm.installRequest os))
  | _ => None
  end.

(** The error any call came back with. *)
Definition errorOf (c : Call) : option error :=
  match c with
  | CallReadFile _ _ err | CallClientConfig _ _ _ err
  | CallNewForConfig _ _ err | CallPortforwarderNew _ _ _ _ err
  | CallLoad _ _ err | CallReleaseContent _ _ _ err
  | CallInstall _ _ _ _ _ err | CallUpdate _ _ _ _ _ err
  | CallDelete _ _ _ _ err => err
  | CallArgs _ | CallPrintln _ | CallDiff _ _ _ => None
  end.

(** The purge flag of a delete call. *)
Definition callPurge (c : Call) : option bool :=
  match c with
  | CallDelete _ _ os _ _ => Some (helm.delPurge (helm.deleteRequest os))
  | _ => None
  end.

(** An answer of tiller that came without an error carries a release with
    its info and status. *)
Definition wellFormed (c : Call) : Prop :=
  isHelm c = true -> errorOf c = None ->
  is_Some (r ← callResponse c; rel ← rls.Release r;
           info ← release.Info rel; release.Status info).

(** The calls of ForwardTillerPort, with what they are given. *)
Definition forwards (w : wheelie.Wheelie) (c : Call) : Prop :=
  match c with
  | CallClientConfig ctx kc _ _ =>
      ctx = wheelie.KubeContext w ∧ kc = wheelie.Kubeconfig w
  | CallNewForConfig _ _ _ => True
  | CallPortforwarderNew ns _ _ _ _ => ns = wheelie.TillerNamespace w
  | _ => False
  end.

(** A run with calls put in front of its trace. *)
Definition prepend {S A} (t : list Call) (r : option A * S * list Call)
  : option A * S * list Call :=
  (r.1.1, r.1.2, t ++ r.2).

End Calls.

(** ** The paths of Run *)

Section Paths.
Context `{GoTypes} {S : Type} (B : Backend S) (J : ansible.Codec).

(** The module after [fail] and after [succeed]. *)
Definition failed (m : ansible.HelmModule) (msg : string)
  : ansible.HelmModule :=
  {| ansible.Input := ansible.Input m;
     ansible.Output :=
       {| ansible.Msg := msg;
          ansible.Changed := ansible.Changed (ansible.Output m);
          ansible.Failed := true;
          ansible.Invocation :=
            {| ansible.ModuleArgs := ansible.Input m |} |} |}.

Definition succeeded (m : ansible.HelmModule) (msg : string)
    (changed : bool) : ansible.HelmModule :=
  {| ansible.Input := ansible.Input m;
     ansible.Output :=
       {| ansible.Msg := msg;
          ansible.Changed := changed;
          ansible.Failed := ansible.Failed (ansible.Output m);
          ansible.Invocation :=
            {| ansible.ModuleArgs := ansible.Input m |} |} |}.

(** The line respondJSON prints for an output. *)
Definition responseLine (o : ansible.ModuleOutput) : string :=
  match ansible.json_MarshalOutput J o with
  | (_, Some e) =>
      (ansible.json_MarshalOutput J
         (ansible.outputWithMsg ("unexpected output: " +:+ e))).1
  | (responseBytes, None) => responseBytes
  end.

(** A run that ends by printing the answer of the module. *)
Definition printing (pre : list Call) (m : ansible.HelmModule) (s : S)
  : option ansible.HelmModule * S * list Call :=
  let line := responseLine (ansible.Output m) in
  (Some m, (fmt_Println B line s).2, pre ++ [CallPrintln line]).

(** The struct Run builds from the input. *)
Definition moduleWheelie (i : ansible.ModuleInput) : wheelie.Wheelie :=
  {| wheelie.Kubeconfig := ansible.Kubeconfig i;
     wheelie.KubeContext := EmptyString;
     wheelie.Chart := ansible.Chart i;
     wheelie.ChartVersion := ansible.ChartVersion i;
     wheelie.Values := ansible.Values i;
     wheelie.NoHooks := ansible.NoHooks i;
     wheelie.NoCRDHook := ansible.NoCRDHook i;
     wheelie.Timeout := ansible.Timeout i;
     wheelie.Release := ansible.Release i;
     wheelie.Namespace := ansible.Namespace i;
     wheelie.Wait := ansible.Wait i;
     wheelie.TillerNamespace := ansible.TillerNamespace i;
     wheelie.TillerHost := EmptyString;
     wheelie.TillerTimeout := 300 |}.

(** The switch of Run on the state. *)
Definition dispatch (state : string) (w : wheelie.Wheelie)
  : M S wheelie.Result :=
  if bool_decide (state = ansible.statePresent) then
    wheelie.EnsureReleasePresent B w
  else if bool_decide (state = ansible.stateAbsent) then
    wheelie.EnsureReleaseAbsent B w
  else if bool_decide (state = ansible.statePurged) then
    wheelie.EnsureReleasePurged B w
  else
    ret (EmptyString, false, Some ansible.stateError).

(** What Run does once the input is parsed and normalized: it forwards the
    port, reconciles and answers. *)
Inductive Served (m : ansible.HelmModule) (s : S)
  : option ansible.HelmModule * S * list Call -> Prop :=
| served_forward_panic s1 t1 :
    wheelie.ForwardTillerPort B (moduleWheelie (ansible.Input m)) s
      = (None, s1, t1) ->
    Served m s (None, s1, t1)
| served_forward_error w e s1 t1 :
    wheelie.ForwardTillerPort B (moduleWheelie (ansible.Input m)) s
      = (Some (w, Some e), s1, t1) ->
    Served m s
      (printing t1 (failed m ("unable to forward tiller port: " +:+ e)) s1)
| served_panic w s1 t1 s2 t2 :
    wheelie.ForwardTillerPort B (moduleWheelie (ansible.Input m)) s
      = (Some (w, None), s1, t1) ->
    dispatch (ansible.State (ansible.Input m)) w s1 = (None, s2, t2) ->
    Served m s (None, s2, t1 ++ t2)
| served_error w s1 t1 msg changed e s2 t2 :
    wheelie.ForwardTillerPort B (moduleWheelie (ansible.Input m)) s
      = (Some (w, None), s1, t1) ->
    dispatch (ansible.State (ansible.Input m)) w s1
      = (Some (msg, changed, Some e), s2, t2) ->
    Served m s (printing (t1 ++ t2) (failed m e) s2)
| served_ok w s1 t1 msg changed s2 t2 :
    wheelie.ForwardTillerPort B (moduleWheelie (ansible.Input m)) s
      = (Some (w, None), s1, t1) ->
    dispatch (ansible.State (ansible.Input m)) w s1
      = (Some (msg, changed, None), s2, t2) ->
    Served m s (printing (t1 ++ t2) (succeeded m msg changed) s2).

(** The paths of Run: the three failures of its input, and the paths that
    reach the cluster. *)
Inductive Ran (m : ansible.HelmModule) (s : S)
  : option ansible.HelmModule * S * list Call -> Prop :=
| ran_args args s1 :
    os_Args B s = (args, s1) ->
    length args ≠ 2 ->
    Ran m s
      (printing [CallArgs args]
         (failed m ("expected 2 arguments to module, got " +:+
                    fmt_d (Z.of_nat (length args)))) s1)
| ran_read prog path s1 text e s2 :
    os_Args B s = ([prog; path], s1) ->
    ioutil_ReadFile B path s1 = (text, Some e, s2) ->
    Ran m s
      (printing [CallArgs [prog; path]; CallReadFile path text (Some e)]
         (failed m ("error reading input: " +:+ e)) s2)
| ran_parse prog path s1 text s2 i e :
    os_Args B s = ([prog; path], s1) ->
    ioutil_ReadFile B path s1 = (text, None, s2) ->
    ansible.json_Unmarshal J text (ansible.Input m) = (i, Some e) ->
    Ran m s
      (printing [CallArgs [prog; path]; CallReadFile path text None]
         (failed (ansible.setInput m i) ("unable to parse input: " +:+ e))
         s2)
| ran_served prog path s1 text s2 i r :
    os_Args B s = ([prog; path], s1) ->
    ioutil_ReadFile B path s1 = (text, None, s2) ->
    ansible.json_Unmarshal J text (ansible.Input m) = (i, None) ->
    Served (ansible.setDefaultInputs (ansible.setInput m i)) s2 r ->
    Ran m s
      (prepend [CallArgs [prog; path]; CallReadFile path text None] r).

End Paths.

(** ** Tactics: running a method against an arbitrary backend *)

(** Splits the answer of the next backend call into its parts. *)
Ltac split_call :=
  match goal with
  | |- context [chartutil_Load ?b ?p ?s] =>
      is_var s; destruct (chartutil_Load b p s) as [[? ?] ?] eqn:?
  | |- context [helm_ReleaseContent ?b ?c ?n ?s] =>
      is_var s; destruct (helm_ReleaseContent b c n s) as [[? ?] ?] eqn:?
  | |- context [helm_InstallReleaseFromChart ?b ?c ?ch ?n ?os ?s] =>
      is_var s;
      destruct (helm_InstallReleaseFromChart b c ch n os s)
        as [[? ?] ?] eqn:?
  | |- context [helm_UpdateRelease ?b ?c ?n ?p ?os ?s] =>
      is_var s;
      destruct (helm_UpdateRelease b c n p os s) as [[? ?] ?] eqn:?
  | |- context [helm_DeleteRelease ?b ?c ?n ?os ?s] =>
      is_var s;
      destruct (helm_DeleteRelease b c n os s) as [[? ?] ?] eqn:?
  | |- context [diff_DiffManifests ?b ?c ?n ?s] =>
      is_var s; destruct (diff_DiffManifests b c n s) as [? ?] eqn:?
  | |- context [kube_GetConfig_ClientConfig ?b ?c ?k ?s] =>
      is_var s;
      destruct (kube_GetConfig_ClientConfig b c k s) as [[? ?] ?] eqn:?
  | |- context [kubernetes_NewForConfig ?b ?c ?s] =>
      is_var s;
      destruct (kubernetes_NewForConfig b c s) as [[? ?] ?] eqn:?
  | |- context [portforwarder_New ?b ?n ?c ?k ?s] =>
      is_var s;
      destruct (portforwarder_New b n c k s) as [[? ?] ?] eqn:?
  | |- context [json_Marshal ?b ?v] =>
      destruct (json_Marshal b v) as [? ?] eqn:?
  end.

(** Splits the membership of a call in an explicit trace. *)
Ltac in_trace H :=
  rewrite ?elem_of_cons, ?elem_of_nil in H; destruct_or?;
  simplify_eq; try done.



(** Runs a reconciliation to its leaves: every answer of the backend,
    every test and every pointer is split into its cases. *)
Ltac run :=
  unfold wheelie.EnsureReleasePresent, wheelie.EnsureReleaseAbsent,
    wheelie.EnsureReleasePurged, wheelie.ensureReleaseAbsent,
    wheelie.ForwardTillerPort,
    wheelie.ReleaseContent, wheelie.InstallReleaseFromChart,
    wheelie.UpdateRelease, wheelie.DeleteRelease,
    bind, perform, ret, deref, panic, answer, calls;
  repeat (simpl; first [split_call | case_match]; simplify_eq);
  simpl.



(** Reduces the projections of explicit records. *)
Ltac fields :=
  cbn [ansible.Input ansible.Output ansible.Kubeconfig ansible.Chart
       ansible.ChartVersion ansible.Values ansible.NoHooks
       ansible.NoCRDHook ansible.Timeout ansible.Release
       ansible.Namespace ansible.State ansible.TillerNamespace
       ansible.Wait ansible.setInput ansible.setState
       ansible.setNamespace ansible.setTimeout ansible.setValues
       ansible.setTillerNamespace].

(** Splits the test of one field of the input. *)
Ltac split_field :=
  match goal with
  | |- context [bool_decide (?x = ?y)] =>
      is_var x; destruct (bool_decide (x = y))
  end.

(** Membership in the trace of a run, by running it. *)
Ltac called := apply list_elem_of_In; vm_compute; tauto.

(** ** Counting in a trace *)

Section TraceFacts.
Context `{GoTypes}.

Lemma some_call_existsb (p : Call -> bool) (t : list Call) :
  (∃ c, c ∈ t ∧ p c = true) ↔ existsb p t = true.
Proof.
  rewrite existsb_exists.
  split; intros (c & Hc & Hp); exists c; split; try done.
  - by apply list_elem_of_In.
  - by apply list_elem_of_In.
Qed.

Lemma count_app (p : Call -> bool) (t1 t2 : list Call) :
  count p (t1 ++ t2) = count p t1 + count p t2.
Proof.
  unfold count. induction t1 as [|c t1 IH]; simpl; [done|].
  destruct (p c); simpl; by rewrite IH.
Qed.

Lemma count_none (p : Call -> bool) (t : list Call) :
  (∀ c, c ∈ t -> p c = false) -> count p t = 0.
Proof.
  unfold count. induction t as [|c t IH]; intros Hp; simpl; [done|].
  rewrite (Hp c) by apply list_elem_of_here.
  apply IH. intros c' Hc'. apply Hp. by apply list_elem_of_further.
Qed.

Lemma count_cons (p : Call -> bool) (c : Call) (t : list Call) :
  count p (c :: t) = (if p c then 1 else 0) + count p t.
Proof. unfold count; simpl. by destruct (p c). Qed.

(** A trace of set-up calls between calls that are none of [p]. *)
Lemma count_around_setup (p : Call -> bool) (a b z : Call) t :
  (∀ c, isProvisioning c = true -> p c = false) ->
  (∀ c, c ∈ t -> isProvisioning c = true) ->
  p a = false -> p b = false -> p z = false ->
  count p (a :: b :: t ++ [z]) = 0.
Proof.
  intros Hp Ht Ha Hb Hz.
  rewrite !count_cons, count_app, count_cons, Ha, Hb, Hz.
  rewrite count_none; [done|]. intros c Hc. by apply Hp, Ht.
Qed.

End TraceFacts.

(** ** Properties of the reconciliation *)

Section Reconcile.
Context `{GoTypes} {S : Type} (B : Backend S).
Implicit Types (w : wheelie.Wheelie) (s : S).




(** C8, as the code has it.  The trial upgrade and the committing upgrade
    of one reconciliation go to the same client with the same release
    name, chart path, serialized values, hook flag and timeout, both
    unforced.  They differ in the dry-run flag and in the wait flag: the
    trial does not pass the struct's wait flag and so never waits, the
    committing upgrade passes it. *)
Theorem trial_and_committing_upgrade_inputs w s
    cl1 n1 p1 os1 r1 e1 cl2 n2 p2 os2 r2 e2 :
  let t := calls (wheelie.EnsureReleasePresent B w s) in
  let trial := helm.updateRequest os1 in
  let real := helm.updateRequest os2 in
  CallUpdate cl1 n1 p1 os1 r1 e1 ∈ t ->
  CallUpdate cl2 n2 p2 os2 r2 e2 ∈ t ->
  isTrial (CallUpdate cl1 n1 p1 os1 r1 e1) = true ->
  isPlainUpgrade (CallUpdate cl2 n2 p2 os2 r2 e2) = true ->
  cl1 = cl2 ∧ n1 = n2 ∧ p1 = p2 ∧
  n1 = wheelie.Release w ∧ p1 = wheelie.Chart w ∧
  helm.updValues trial = helm.updValues real ∧
  helm.updDisableHooks trial = helm.updDisableHooks real ∧
  helm.updTimeout trial = helm.updTimeout real ∧
  helm.updForce trial = helm.updForce real ∧
  helm.updDryRun trial = true ∧ helm.updDryRun real = false ∧
  helm.updWait trial = false ∧ helm.updWait real = wheelie.Wait w.
Proof.
  run; intros Hin1 Hin2 Htrial Hreal; in_trace Hin1; in_trace Hin2.
Qed.

(** C6, where the code departs from it.  When ReleaseContent comes back
    with an error that is not the not-found one, and so with a nil
    response, neither method returns that error: both go on to read the
    status of the release through the nil response, which panics. *)
Lemma read_error_is_not_returned w purge s e :
  wheelie.isNotFound B (Some e) (wheelie.Release w) = false ->
  (CallReleaseContent (wheelie.newClient w) (wheelie.Release w) None
     (Some e) ∈ calls (wheelie.EnsureReleasePresent B w s) ->
   answer (wheelie.EnsureReleasePresent B w s) = None) ∧
  (CallReleaseContent (wheelie.newClient w) (wheelie.Release w) None
     (Some e) ∈ calls (wheelie.ensureReleaseAbsent B w purge s) ->
   answer (wheelie.ensureReleaseAbsent B w purge s) = None).
Proof.
  intros Hnf; split; run; intros Hin; in_trace Hin; congruence.
Qed.

(** C7. In one call of EnsureReleasePresent or of ensureReleaseAbsent, at
    most one mutation call is made, of one kind (install, forced upgrade,
    committing upgrade or delete), and at most one trial; when the call
    returns, changed is true if and only if a mutation call ran and came
    back without an error, so a return with an error, or without a
    mutation call, has changed=false. *)
Theorem one_action_per_reconciliation w purge s r :
  r = wheelie.EnsureReleasePresent B w s ∨
  r = wheelie.ensureReleaseAbsent B w purge s ->
  count isInstall (calls r) + count isForcedUpgrade (calls r) +
    count isPlainUpgrade (calls r) + count isDelete (calls r) ≤ 1 ∧
  count isMutation (calls r) ≤ 1 ∧
  count isTrial (calls r) ≤ 1 ∧
  ∀ msg changed err,
    answer r = Some (msg, changed, err) ->
    (changed = true ↔ ∃ c, c ∈ calls r ∧ isSuccessfulMutation c = true) ∧
    (err ≠ None -> changed = false) ∧
    (count isMutation (calls r) = 0 -> changed = false).
Proof.
  intros [-> | ->]; run.
  all: split_and!; try (vm_compute; lia).
  all: intros msg changed err Heq; simplify_eq.
  all: rewrite some_call_existsb; split_and!; try done.
  all: try (intros Hc; vm_compute in Hc; done).
  all: vm_compute; intuition congruence.
Qed.


(** C10. A successful ForwardTillerPort changes the TillerHost field
    only, to 127.0.0.1:<port> with the local port of the forwarder it was
    given; one that returns an error changes no field. *)
Theorem ForwardTillerPort_frame w s w' err :
  answer (wheelie.ForwardTillerPort B w s) = Some (w', err) ->
  (err = None ->
     ∃ cl cfg f,
       CallPortforwarderNew (wheelie.TillerNamespace w) cl cfg (Some f)
         None ∈ calls (wheelie.ForwardTillerPort B w s) ∧
       wheelie.TillerHost w' = "127.0.0.1:" +:+ fmt_d (Local f)) ∧
  (err ≠ None -> w' = w) ∧
  wheelie.Kubeconfig w' = wheelie.Kubeconfig w ∧
  wheelie.KubeContext w' = wheelie.KubeContext w ∧
  wheelie.Chart w' = wheelie.Chart w ∧
  wheelie.ChartVersion w' = wheelie.ChartVersion w ∧
  wheelie.Values w' = wheelie.Values w ∧
  wheelie.NoHooks w' = wheelie.NoHooks w ∧
  wheelie.NoCRDHook w' = wheelie.NoCRDHook w ∧
  wheelie.Timeout w' = wheelie.Timeout w ∧
  wheelie.Release w' = wheelie.Release w ∧
  wheelie.Namespace w' = wheelie.Namespace w ∧
  wheelie.Wait w' = wheelie.Wait w ∧
  wheelie.TillerNamespace w' = wheelie.TillerNamespace w ∧
  wheelie.TillerTimeout w' = wheelie.TillerTimeout w.
Proof.
  revert w' err. run; intros w' err Heq; simplify_eq;
    (split; [|split; [|done]]); try done.
  intros _. eexists _, _, _. split; [|reflexivity].
  repeat first [apply list_elem_of_here | apply list_elem_of_further].
Qed.

End Reconcile.

(** ** Properties of Run *)

Section Run.
Context `{GoTypes} {S : Type} (B : Backend S) (J : ansible.Codec).
Implicit Types (m : ansible.HelmModule) (s : S) (w : wheelie.Wheelie).

(** What ForwardTillerPort leaves in the trace: calls that set up the
    connection only, and at least one of them; and it returns without an
    error exactly when the forwarder came back without one. *)
Lemma ForwardTillerPort_calls w s :
  (∀ c, c ∈ calls (wheelie.ForwardTillerPort B w s) ->
        isProvisioning c = true) ∧
  1 ≤ count isProvisioning (calls (wheelie.ForwardTillerPort B w s)) ∧
  ∀ w' err,
    answer (wheelie.ForwardTillerPort B w s) = Some (w', err) ->
    (err = None ↔
     ∃ ns cl cfg f, CallPortforwarderNew ns cl cfg f None
                      ∈ calls (wheelie.ForwardTillerPort B w s)).
Proof.
  run; split_and!.
  all: try (intros c Hc; in_trace Hc; fail).
  all: try (unfold count; simpl; lia).
  all: intros w' err Heq; simplify_eq.
  all: split; [try done|].
  all: try (intros (? & ? & ? & ? & Hf); in_trace Hf; fail).
  all: intros _; eexists _, _, _, _;
    repeat first [apply list_elem_of_here | apply list_elem_of_further].
Qed.

(** What fail leaves behind: one line printed, and the module marked
    failed with the message and the input it ran with. *)
Lemma fail_result m msg s :
  ∃ line s',
    ansible.fail B J m msg s =
    (Some {| ansible.Input := ansible.Input m;
             ansible.Output :=
               {| ansible.Msg := msg;
                  ansible.Changed := ansible.Changed (ansible.Output m);
                  ansible.Failed := true;
                  ansible.Invocation :=
                    {| ansible.ModuleArgs := ansible.Input m |} |} |},
     s', [CallPrintln line]).
Proof.
  unfold ansible.fail, ansible.respondJSON, bind, perform, ret.
  cbn [ansible.setOutput ansible.Input ansible.Output ansible.Msg
       ansible.Changed ansible.Failed ansible.Invocation].
  destruct (ansible.json_MarshalOutput J _) as [line [e|]];
    match goal with
    | |- context [fmt_Println B ?l s] =>
        destruct (fmt_Println B l s) as [[] s'] eqn:Hp
    end; eexists _, _; reflexivity.
Qed.

(** C5, as the code has it.  When the state of the input, after
    normalization, is none of present, absent and purged, Run loads no
    chart, reads no release and makes no install, upgrade or delete call,
    and the module fails.  The connection to tiller is set up first all
    the same: the error about the state is the answer when that set-up
    succeeds, and the error of the set-up is the answer when it fails. *)
Theorem Run_invalid_state m s prog path s1 text s2 i :
  let r := ansible.Run B J m s in
  let m1 := ansible.setDefaultInputs (ansible.setInput m i) in
  os_Args B s = ([prog; path], s1) ->
  ioutil_ReadFile B path s1 = (text, None, s2) ->
  ansible.json_Unmarshal J text (ansible.Input m) = (i, None) ->
  ansible.State (ansible.Input m1) ≠ ansible.statePresent ->
  ansible.State (ansible.Input m1) ≠ ansible.stateAbsent ->
  ansible.State (ansible.Input m1) ≠ ansible.statePurged ->
  count isLoad (calls r) = 0 ∧
  count isReleaseContent (calls r) = 0 ∧
  count isMutation (calls r) = 0 ∧
  count isUpdate (calls r) = 0 ∧
  1 ≤ count isProvisioning (calls r) ∧
  ∀ m', answer r = Some m' ->
    ansible.Input m' = ansible.Input m1 ∧
    ansible.Failed (ansible.Output m') = true ∧
    ((∃ ns cl cfg f, CallPortforwarderNew ns cl cfg f None ∈ calls r) ->
       ansible.Msg (ansible.Output m') = ansible.stateError) ∧
    ((∀ ns cl cfg f, CallPortforwarderNew ns cl cfg f None ∉ calls r) ->
       ∃ e, ansible.Msg (ansible.Output m') =
              "unable to forward tiller port: " +:+ e).
Proof.
  intros r m1 Hargs Hread Hparse Hp Ha Hu.
  assert (Hr : r = ansible.Run B J m s) by done. clearbody r.
  unfold ansible.Run, bind, perform, deref in Hr.
  rewrite Hargs in Hr. cbn [length Z.of_nat Pos.of_succ_nat Pos.succ] in Hr.
  rewrite bool_decide_eq_false_2 in Hr by (intros Hne; by apply Hne).
  cbn [lookup list_lookup] in Hr. rewrite Hread in Hr.
  cbn [fst snd] in Hr. rewrite Hparse in Hr. fold m1 in Hr.
  clearbody m1.
  rewrite !bool_decide_eq_false_2 in Hr by done. unfold ret in Hr.
  match type of Hr with
  | context [wheelie.ForwardTillerPort B ?w s2] =>
      destruct (ForwardTillerPort_calls w s2) as (Hprov & Hone & Hans);
      destruct (wheelie.ForwardTillerPort B w s2)
        as [[[[w' [e|]]|] s3] t]
  end.
  - destruct (fail_result m1 ("unable to forward tiller port: " +:+ e) s3)
      as (line & s' & Hfail).
    rewrite Hfail in Hr. cbn in Hr. subst r.
    cbn [calls answer fst snd] in *.
    split_and!;
      try (apply count_around_setup; try done; by intros []).
    + rewrite !count_cons, count_app. cbn [isProvisioning]. lia.
    + intros m' Heq; simplify_eq. cbn. split_and!; try done.
      * intros (ns & cl & cfg & f & Hin).
        rewrite !elem_of_cons, elem_of_app, elem_of_cons in Hin.
        destruct Hin as [?|[?|[Hin|[?|Hin]]]]; try done.
        -- assert (Some e = None) as Hcontra; [|done].
           apply (Hans w'); [done|]. by eexists _, _, _, _.
        -- by apply elem_of_nil in Hin.
      * intros _. by eexists.
  - destruct (fail_result m1 ansible.stateError s3)
      as (line & s' & Hfail).
    rewrite Hfail in Hr. cbn in Hr. subst r.
    cbn [calls answer fst snd] in *.
    split_and!;
      try (apply count_around_setup; try done; by intros []).
    + rewrite !count_cons, count_app. cbn [isProvisioning]. lia.
    + intros m' Heq; simplify_eq. cbn. split_and!; try done.
      intros Hno. exfalso.
      destruct (proj1 (Hans w' None eq_refl) eq_refl)
        as (ns & cl & cfg & f & Hin).
      apply (Hno ns cl cfg f).
      rewrite !elem_of_cons, elem_of_app. auto.
  - cbn in Hr. subst r. cbn [calls answer fst snd] in *.
    split_and!; [..|done].
    1-4: rewrite !count_cons; cbn; rewrite count_none; [done|];
      intros c Hc; apply Hprov in Hc; by destruct c.
    rewrite !count_cons. cbn [isProvisioning]. lia.
Qed.
End Run.

(** ** Properties of the module *)

Section Module.
Context `{GoTypes}.
Implicit Types (m : ansible.HelmModule).

Lemma setDefaultInputs_populated m :
  populated (ansible.Input m) -> ansible.setDefaultInputs m = m.
Proof.
  destruct m as [i o]. intros (Hs & Hn & Ht & Hv & Htn).
  unfold ansible.setDefaultInputs; simpl in *.
  rewrite (bool_decide_eq_false_2 _ Hs); simpl.
  rewrite (bool_decide_eq_false_2 _ Hn); simpl.
  rewrite (bool_decide_eq_false_2 _ Ht); simpl.
  destruct (ansible.Values i); [simpl|done].
  by rewrite (bool_decide_eq_false_2 _ Htn).
Qed.

(** setDefaultInputs, field by field. *)
Lemma setDefaultInputs_fields m :
  ansible.setDefaultInputs m =
  let i := ansible.Input m in
  {| ansible.Input :=
       {| ansible.Kubeconfig := ansible.Kubeconfig i;
          ansible.Chart := ansible.Chart i;
          ansible.ChartVersion := ansible.ChartVersion i;
          ansible.Values :=
            match ansible.Values i with
            | None => Some ∅
            | Some v => Some v
            end;
          ansible.NoHooks := ansible.NoHooks i;
          ansible.NoCRDHook := ansible.NoCRDHook i;
          ansible.Timeout :=
            if bool_decide (ansible.Timeout i = 0%Z) then 300%Z
            else ansible.Timeout i;
          ansible.Release := ansible.Release i;
          ansible.Namespace :=
            if bool_decide (ansible.Namespace i = EmptyString)
            then "default" else ansible.Namespace i;
          ansible.State :=
            if bool_decide (ansible.State i = EmptyString)
            then "present" else ansible.State i;
          ansible.TillerNamespace :=
            if bool_decide (ansible.TillerNamespace i = EmptyString)
            then "kube-system" else ansible.TillerNamespace i;
          ansible.Wait := ansible.Wait i |};
     ansible.Output := ansible.Output m |}.
Proof.
  destruct m as [[kc ch cv vals nh ncrd tmo rel ns st tns wt] o].
  unfold ansible.setDefaultInputs. destruct vals.
  all: repeat (fields; split_field); reflexivity.
Qed.
(** C9. setDefaultInputs is a function of the module alone, with no error
    to return.  Each of the five fields is replaced by its default when
    it is empty, zero or nil, whatever the others hold, and kept
    otherwise; every other field and the output are kept; and a second
    application changes nothing. *)
Theorem setDefaultInputs_defaults m :
  let i := ansible.Input m in
  let i' := ansible.Input (ansible.setDefaultInputs m) in
  ansible.State i' =
    (if bool_decide (ansible.State i = EmptyString) then "present"
     else ansible.State i) ∧
  ansible.Namespace i' =
    (if bool_decide (ansible.Namespace i = EmptyString) then "default"
     else ansible.Namespace i) ∧
  ansible.Timeout i' =
    (if bool_decide (ansible.Timeout i = 0%Z) then 300%Z
     else ansible.Timeout i) ∧
  ansible.Values i' =
    match ansible.Values i with
    | None => Some ∅
    | Some v => Some v
    end ∧
  ansible.TillerNamespace i' =
    (if bool_decide (ansible.TillerNamespace i = EmptyString)
     then "kube-system" else ansible.TillerNamespace i) ∧
  ansible.Kubeconfig i' = ansible.Kubeconfig i ∧
  ansible.Chart i' = ansible.Chart i ∧
  ansible.ChartVersion i' = ansible.ChartVersion i ∧
  ansible.NoHooks i' = ansible.NoHooks i ∧
  ansible.NoCRDHook i' = ansible.NoCRDHook i ∧
  ansible.Release i' = ansible.Release i ∧
  ansible.Wait i' = ansible.Wait i ∧
  ansible.Output (ansible.setDefaultInputs m) = ansible.Output m ∧
  populated i' ∧
  ansible.setDefaultInputs (ansible.setDefaultInputs m) =
    ansible.setDefaultInputs m.
Proof.
  cbv zeta.
  assert (Hpop : populated (ansible.Input (ansible.setDefaultInputs m))).
  { rewrite setDefaultInputs_fields. unfold populated. fields.
    split_and!; try (case_bool_decide; done).
    by destruct (ansible.Values (ansible.Input m)). }
  split_and!; try (rewrite setDefaultInputs_fields; reflexivity).
  - exact Hpop.
  - by apply setDefaultInputs_populated.
Qed.

End Module.

(** ** More on the reconciliation

    Texts first: what [strings.Contains] finds. *)

Section Strings.




End Strings.

Section Methods.
Context `{GoTypes} {S : Type} (B : Backend S).
Implicit Types (w : wheelie.Wheelie) (s : S).



(** Goes through an explicit trace call by call. *)
Ltac each_call :=
  repeat (apply Forall_cons_2;
          [first [reflexivity
                 | let Hc := fresh in
                   intros Hc; first [discriminate Hc | by split | done]]
          |]);
  apply Forall_nil_2.

(** What every run of EnsureReleasePresent looks like. *)
Lemma EnsureReleasePresent_shape w s :
  let r := wheelie.EnsureReleasePresent B w s in
  Forall (λ c, isReconcile c = true) (calls r) ∧
  Forall (λ c, isHelm c = true ->
               callClient c = Some (wheelie.newClient w) ∧
               callRelease c = Some (wheelie.Release w)) (calls r) ∧
  count isDelete (calls r) = 0 ∧
  ∀ msg changed err,
    answer r = Some (msg, changed, err) ->
    changed = existsb isSuccessfulMutation (calls r) ∧
    (err ≠ None -> msg = EmptyString ∧ changed = false).
Proof.
  run; split_and!; try reflexivity.
  all: try done; try each_call.
  all: intros msg changed err Heq; simplify_eq; by split.
Qed.

(** What every run of ensureReleaseAbsent looks like. *)
Lemma ensureReleaseAbsent_shape w purge s :
  let r := wheelie.ensureReleaseAbsent B w purge s in
  Forall (λ c, isReconcile c = true) (calls r) ∧
  Forall (λ c, isHelm c = true ->
               callClient c = Some (wheelie.newClient w) ∧
               callRelease c = Some (wheelie.Release w)) (calls r) ∧
  count isLoad (calls r) = 0 ∧ count isInstall (calls r) = 0 ∧
  count isUpdate (calls r) = 0 ∧ count isDiff (calls r) = 0 ∧
  Forall (λ c, isDelete c = true -> callPurge c = Some purge) (calls r) ∧
  ∀ msg changed err,
    answer r = Some (msg, changed, err) ->
    changed = existsb isSuccessfulMutation (calls r) ∧
    (err ≠ None -> msg = EmptyString ∧ changed = false).
Proof.
  run; split_and!; try reflexivity.
  all: try done; try each_call.
  all: intros msg changed err Heq; simplify_eq; by split.
Qed.

(** X2. Each method keeps to its own calls.  EnsureReleasePresent never
    deletes; ensureReleaseAbsent never loads a chart, installs, upgrades or
    runs the differ; and neither prints, reads a file or sets up a
    connection. *)
Theorem methods_keep_to_their_calls w purge s :
  let p := wheelie.EnsureReleasePresent B w s in
  let a := wheelie.ensureReleaseAbsent B w purge s in
  count isDelete (calls p) = 0 ∧
  count isLoad (calls a) = 0 ∧ count isInstall (calls a) = 0 ∧
  count isUpdate (calls a) = 0 ∧ count isDiff (calls a) = 0 ∧
  (∀ c, c ∈ calls p ∨ c ∈ calls a ->
        isLoad c || isHelm c || isDiff c = true).
Proof.
  destruct (EnsureReleasePresent_shape w s) as (Hp & _ & Hd & _).
  destruct (ensureReleaseAbsent_shape w purge s)
    as (Ha & _ & Hl & Hi & Hu & Hf & _).
  cbv zeta. split_and!; try done.
  intros c [Hc | Hc]; [revert c Hc | revert c Hc]; by apply Forall_forall.
Qed.

(** X3. Every call either method makes to tiller goes through a client
    built from the struct's
    TillerHost and TillerTimeout and is about the struct's release. *)
Theorem calls_are_about_the_release w purge s r c :
  r = wheelie.EnsureReleasePresent B w s ∨
  r = wheelie.ensureReleaseAbsent B w purge s ->
  c ∈ calls r ->
  isHelm c = true ->
  callClient c =
    Some (helm.NewClient [helm.Host (wheelie.TillerHost w);
                          helm.ConnectTimeout (wheelie.TillerTimeout w)]) ∧
  callRelease c = Some (wheelie.Release w).
Proof.
  intros [-> | ->] Hc Hh.
  - destruct (EnsureReleasePresent_shape w s) as (_ & Hcl & _).
    by apply (proj1 (Forall_forall _ _) Hcl c).
  - destruct (ensureReleaseAbsent_shape w purge s) as (_ & Hcl & _).
    by apply (proj1 (Forall_forall _ _) Hcl c).
Qed.

(** X4. An error is returned as the failing call gave it.  When either
    method returns an error, the message is empty, changed is false, and
    the error is that of the last call made, or that of json.Marshal on
    the values: nothing is called after a failure and nothing is retried. *)
Theorem errors_are_returned_verbatim w purge s r msg changed e :
  r = wheelie.EnsureReleasePresent B w s ∨
  r = wheelie.ensureReleaseAbsent B w purge s ->
  answer r = Some (msg, changed, Some e) ->
  msg = EmptyString ∧ changed = false ∧
  ((json_Marshal B (wheelie.Values w)).2 = Some e ∨
   ∃ c, last (calls r) = Some c ∧ errorOf c = Some e).
Proof.
  intros [-> | ->]; revert msg changed e; run;
    intros msg changed e' Heq; simplify_eq; split_and!; try done.
  all: first [by right; eexists | by left].
Qed.

Lemma parseManifest_Some res (m : Manifests) :
  wheelie.parseManifest B res = Some m ->
  ∃ rel, res = Some {| rls.Release := Some rel |} ∧
         m = manifest_Parse B (release.Manifest rel)
               (release.Namespace rel).
Proof.
  destruct res as [[[rel|]]|]; simpl; intros Heq; simplify_eq.
  by exists rel.
Qed.

Lemma parseRelease_Some res (m : Manifests) :
  wheelie.parseRelease B res = Some m ->
  ∃ rel, res = Some {| rls.Release := Some rel |} ∧
         m = manifest_ParseRelease B rel.
Proof.
  destruct res as [[[rel|]]|]; simpl; intros Heq; simplify_eq.
  by exists rel.
Qed.

(** X5. What the differ is given.  With hooks disabled it compares the
    stored manifest text of the release that was read with that of the
    release the trial returned, each parsed with its own namespace; with
    hooks enabled it compares the two releases parsed whole. *)
Theorem differ_compares_current_with_trial w s current new hasChanges :
  CallDiff current new hasChanges
    ∈ calls (wheelie.EnsureReleasePresent B w s) ->
  ∃ err os cur trial,
    CallReleaseContent (wheelie.newClient w) (wheelie.Release w)
      (Some {| rls.Release := Some cur |}) err
      ∈ calls (wheelie.EnsureReleasePresent B w s) ∧
    CallUpdate (wheelie.newClient w) (wheelie.Release w) (wheelie.Chart w)
      os (Some {| rls.Release := Some trial |}) None
      ∈ calls (wheelie.EnsureReleasePresent B w s) ∧
    helm.updDryRun (helm.updateRequest os) = true ∧
    current =
      (if wheelie.NoHooks w
       then manifest_Parse B (release.Manifest cur) (release.Namespace cur)
       else manifest_ParseRelease B cur) ∧
    new =
      (if wheelie.NoHooks w
       then manifest_Parse B (release.Manifest trial)
              (release.Namespace trial)
       else manifest_ParseRelease B trial).
Proof.
  run; intros Hin; in_trace Hin.
  all: repeat match goal with
         | Hm : wheelie.parseManifest _ _ = Some _ |- _ =>
             apply parseManifest_Some in Hm as (? & -> & ->)
         | Hm : wheelie.parseRelease _ _ = Some _ |- _ =>
             apply parseRelease_Some in Hm as (? & -> & ->)
         | Hn : wheelie.NoHooks _ = _ |- _ => rewrite Hn in *
         end.
  all: eexists _, _, _, _; split_and!;
    [ apply list_elem_of_further, list_elem_of_here
    | do 2 apply list_elem_of_further; apply list_elem_of_here
    | reflexivity..].
Qed.

Lemma complete_response res :
  is_Some (r ← res; rel ← rls.Release r; info ← release.Info rel;
           release.Status info) ->
  is_Some (wheelie.description res) ∧ is_Some (wheelie.statusCode res) ∧
  is_Some (wheelie.parseManifest B res) ∧
  is_Some (wheelie.parseRelease B res).
Proof.
  destruct res as [[[[? [[[?|] ?]|] ? ? ?]|]]|]; simpl; intros [? ?];
    simplify_eq; by split_and!.
Qed.

(** X6. The methods return whenever tiller answers as it should.  If the
    read of the release either succeeds or reports not-found, and every
    answer of tiller that comes without an error carries a release with its
    info and status, then neither method panics. *)
Theorem well_formed_answers_give_a_result w purge s r :
  r = wheelie.EnsureReleasePresent B w s ∨
  r = wheelie.ensureReleaseAbsent B w purge s ->
  (∀ c, c ∈ calls r -> isReleaseContent c = true ->
        errorOf c = None ∨
        wheelie.isNotFound B (errorOf c) (wheelie.Release w) = true) ->
  (∀ c, c ∈ calls r -> wellFormed c) ->
  is_Some (answer r).
Proof.
  intros [-> | ->]; run; intros Hread Hwf; try done.
  all: exfalso.
  all: apply Forall_forall in Hwf; apply Forall_forall in Hread.
  all: repeat match goal with
         | Hf : Forall _ (_ :: _) |- _ => apply Forall_cons in Hf as [? Hf]
         end.
  all: unfold wellFormed in *; cbn [errorOf callResponse] in *.
  all: repeat match goal with
         | Hr : isReleaseContent ?c = true -> _ |- _ =>
             first [specialize (Hr eq_refl) | clear Hr]
         | Hr : isHelm ?c = true -> _ |- _ =>
             first [specialize (Hr eq_refl) | clear Hr]
         | Hr : _ ∨ _, Hn : wheelie.isNotFound _ _ _ = false |- _ =>
             destruct Hr as [->|?]; [|congruence]
         | Hr : None = None -> _ |- _ =>
             specialize (Hr eq_refl);
             apply complete_response in Hr as (? & ? & ? & ?)
         end.
  all: repeat match goal with
         | Hn : _ = None, Hs : is_Some _ |- _ =>
             rewrite Hn in Hs; by destruct Hs
         end.
Qed.

(** X7. The fields the methods do not read.  Two structs that agree on the
    chart path, values, hook flags, timeout, release, namespace, wait flag
    and tiller host and timeout run EnsureReleasePresent alike, whatever
    their ChartVersion, Kubeconfig, KubeContext and TillerNamespace; for
    ensureReleaseAbsent the hook flag, timeout, release and tiller host and
    timeout are enough. *)
Theorem unread_fields w w' purge :
  wheelie.NoHooks w = wheelie.NoHooks w' ->
  wheelie.Timeout w = wheelie.Timeout w' ->
  wheelie.Release w = wheelie.Release w' ->
  wheelie.TillerHost w = wheelie.TillerHost w' ->
  wheelie.TillerTimeout w = wheelie.TillerTimeout w' ->
  wheelie.ensureReleaseAbsent B w purge
    = wheelie.ensureReleaseAbsent B w' purge ∧
  (wheelie.Chart w = wheelie.Chart w' ->
   wheelie.Values w = wheelie.Values w' ->
   wheelie.NoCRDHook w = wheelie.NoCRDHook w' ->
   wheelie.Namespace w = wheelie.Namespace w' ->
   wheelie.Wait w = wheelie.Wait w' ->
   wheelie.EnsureReleasePresent B w = wheelie.EnsureReleasePresent B w').
Proof.
  destruct w, w'; cbn [wheelie.NoHooks wheelie.Timeout wheelie.Release
    wheelie.TillerHost wheelie.TillerTimeout wheelie.Chart wheelie.Values
    wheelie.NoCRDHook wheelie.Namespace wheelie.Wait].
  intros -> -> -> -> ->. split; [reflexivity|].
  by intros -> -> -> -> ->.
Qed.

(** X8. ForwardTillerPort stops at the step that fails.  An error it
    returns comes from the last call it made: the configuration error and
    the client error are wrapped in a text that names the step (and, for
    the configuration, the context), the forwarder's error is returned as
    it is, and no later step is attempted. *)
Theorem ForwardTillerPort_stops_at_failure w s w' e :
  answer (wheelie.ForwardTillerPort B w s) = Some (w', Some e) ->
  (∃ cfg e0,
     calls (wheelie.ForwardTillerPort B w s) =
       [CallClientConfig (wheelie.KubeContext w) (wheelie.Kubeconfig w)
          cfg (Some e0)] ∧
     e = "could not get Kubernetes config for context " +:+
         strconv_Quote B (wheelie.KubeContext w) +:+ ": " +:+ e0) ∨
  (∃ cfg cl e0,
     calls (wheelie.ForwardTillerPort B w s) =
       [CallClientConfig (wheelie.KubeContext w) (wheelie.Kubeconfig w)
          cfg None;
        CallNewForConfig cfg cl (Some e0)] ∧
     e = "could not get Kubernetes client: " +:+ e0) ∨
  (∃ cfg cl f,
     calls (wheelie.ForwardTillerPort B w s) =
       [CallClientConfig (wheelie.KubeContext w) (wheelie.Kubeconfig w)
          cfg None;
        CallNewForConfig cfg cl None;
        CallPortforwarderNew (wheelie.TillerNamespace w) cl cfg f
          (Some e)]).
Proof.
  run; intros Heq; simplify_eq.
  - left. by eexists _, _.
  - right; left. by eexists _, _, _.
  - right; right. by eexists _, _, _.
Qed.

End Methods.

(** ** What the calls carry *)

Section Requests.
Context `{GoTypes} {S : Type} (B : Backend S).
Implicit Types (w : wheelie.Wheelie) (s : S).

(** X9. What an install and a delete are sent with.  The install call of
    EnsureReleasePresent is given the chart that was loaded from the
    struct's chart path, the struct's namespace, and a request with the
    marshalled values, the release name, both hook flags, the timeout and
    the wait flag of the struct; the delete call of ensureReleaseAbsent is
    sent with the struct's hook flag and timeout and with the purge flag
    the method was called with. *)
Theorem install_and_delete_requests w purge s :
  (∀ client chart namespace os res err,
     CallInstall client chart namespace os res err
       ∈ calls (wheelie.EnsureReleasePresent B w s) ->
     CallLoad (wheelie.Chart w) chart None
       ∈ calls (wheelie.EnsureReleasePresent B w s) ∧
     namespace = wheelie.Namespace w ∧
     helm.installRequest os =
       {| helm.instValues := (json_Marshal B (wheelie.Values w)).1;
          helm.instName := wheelie.Release w;
          helm.instDisableHooks := wheelie.NoHooks w;
          helm.instDisableCRDHook := wheelie.NoCRDHook w;
          helm.instTimeout := wheelie.Timeout w;
          helm.instWait := wheelie.Wait w |}) ∧
  (∀ client name os res err,
     CallDelete client name os res err
       ∈ calls (wheelie.ensureReleaseAbsent B w purge s) ->
     helm.deleteRequest os =
       {| helm.delDisableHooks := wheelie.NoHooks w;
          helm.delPurge := purge;
          helm.delTimeout := wheelie.Timeout w |}).
Proof.
  split.
  - run; intros client chart namespace os res err Hin; in_trace Hin.
    all: split_and!; try reflexivity.
    all: repeat first [apply list_elem_of_here | apply list_elem_of_further].
  - run; intros client name os res err Hin; in_trace Hin.
    all: reflexivity.
Qed.

(** X10. The message of a success.  When ensureReleaseAbsent returns no
    error, its message is "release <name> deleted" if it changed something
    and empty if not; when EnsureReleasePresent returns no error and
    reports a change, its message is the description in the answer of the
    last call, which was an install or an upgrade, and it is empty when
    nothing changed. *)
Theorem success_messages w purge s msg changed :
  (answer (wheelie.ensureReleaseAbsent B w purge s)
     = Some (msg, changed, None) ->
   msg = if changed
         then "release " +:+ wheelie.Release w +:+ " deleted"
         else EmptyString) ∧
  (answer (wheelie.EnsureReleasePresent B w s)
     = Some (msg, changed, None) ->
   if changed
   then ∃ c, last (calls (wheelie.EnsureReleasePresent B w s)) = Some c ∧
             isMutation c = true ∧
             wheelie.description (callResponse c) = Some msg
   else msg = EmptyString).
Proof.
  split.
  - run; intros Heq; by simplify_eq.
  - run; intros Heq; simplify_eq; try done.
    all: by eexists.
Qed.

End Requests.

(** ** Run follows its paths *)

Section RunPaths.
Context `{GoTypes} {S : Type} (B : Backend S) (J : ansible.Codec).
Implicit Types (m : ansible.HelmModule) (s : S) (w : wheelie.Wheelie).

Lemma fail_printing m msg s (pre : list Call) :
  prepend pre (ansible.fail B J m msg s) = printing B J pre (failed m msg) s.
Proof.
  unfold ansible.fail, ansible.respondJSON, printing, responseLine, prepend,
    failed, bind, perform, ret.
  cbn [ansible.setOutput ansible.Input ansible.Output ansible.Msg
       ansible.Changed ansible.Failed ansible.Invocation].
  destruct (ansible.json_MarshalOutput J _) as [line [e|]];
    match goal with
    | |- context [fmt_Println B ?l s] => destruct (fmt_Println B l s)
    end; reflexivity.
Qed.

Lemma succeed_printing m msg changed s (pre : list Call) :
  prepend pre (ansible.succeed B J m msg changed s)
  = printing B J pre (succeeded m msg changed) s.
Proof.
  unfold ansible.succeed, ansible.respondJSON, printing, responseLine,
    prepend, succeeded, bind, perform, ret.
  cbn [ansible.setOutput ansible.Input ansible.Output ansible.Msg
       ansible.Changed ansible.Failed ansible.Invocation].
  destruct (ansible.json_MarshalOutput J _) as [line [e|]];
    match goal with
    | |- context [fmt_Println B ?l s] => destruct (fmt_Println B l s)
    end; reflexivity.
Qed.

(** The tail of a bind puts the calls made so far in front. *)
Lemma tail_prepend {A} (pre : list Call) (x : option A * S * list Call) :
  (let (p, t2) := x in let (b, s2) := p in (b, s2, pre ++ t2))
  = prepend pre x.
Proof. by destruct x as [[? ?] ?]. Qed.

(** Two descriptions of one run are the same run. *)
Ltac path_eq :=
  rewrite ?tail_prepend, <- ?fail_printing, <- ?succeed_printing;
  unfold prepend; cbn [fst snd app];
  repeat match goal with
         | |- context [ansible.fail ?b ?j ?m ?msg ?s] =>
             destruct (ansible.fail b j m msg s) as [[? ?] ?]
         | |- context [ansible.succeed ?b ?j ?m ?msg ?c ?s] =>
             destruct (ansible.succeed b j m msg c s) as [[? ?] ?]
         end;
  cbn [fst snd app]; rewrite <- ?app_assoc; reflexivity.

Lemma Run_ran m s : Ran B J m s (ansible.Run B J m s).
Proof.
  unfold ansible.Run, bind, perform, deref.
  destruct (os_Args B s) as [args s1] eqn:Hargs.
  case_bool_decide as Hlen.
  { rewrite tail_prepend, fail_printing. apply ran_args; [done|].
    intros Hl. apply Hlen. by rewrite Hl. }
  assert (∃ prog path, args = [prog; path]) as (prog & path & ->).
  { destruct args as [|prog [|path [|x args]]]; cbn [length] in Hlen;
      try (exfalso; lia). by eexists _, _. }
  cbn [lookup list_lookup]. cbv beta iota zeta.
  destruct (ioutil_ReadFile B path s1) as [[text [e|]] s2] eqn:Hread;
    cbv beta iota zeta; cbn [fst snd].
  { eapply (eq_ind _ (Ran B J m s)); [by eapply ran_read|]. path_eq. }
  destruct (ansible.json_Unmarshal J text (ansible.Input m))
    as [i [e|]] eqn:Hparse.
  { eapply (eq_ind _ (Ran B J m s)); [by eapply ran_parse|]. path_eq. }
  set (m1 := ansible.setDefaultInputs (ansible.setInput m i)).
  assert (Hm1 : m1 = ansible.setDefaultInputs (ansible.setInput m i))
    by done.
  clearbody m1. fold (moduleWheelie (ansible.Input m1)).
  destruct (wheelie.ForwardTillerPort B (moduleWheelie (ansible.Input m1))
              s2) as [[[[w [e|]]|] s3] t1] eqn:Hfwd;
    cbv beta iota zeta.
  - eapply (eq_ind _ (Ran B J m s));
      [eapply ran_served; [done..|]; rewrite <- Hm1;
       by eapply served_forward_error|].
    path_eq.
  - fold (dispatch B (ansible.State (ansible.Input m1)) w).
    destruct (dispatch B (ansible.State (ansible.Input m1)) w s3)
      as [[[[[msg changed] [e|]]|] s4] t2] eqn:Hdis;
      cbv beta iota zeta.
    + eapply (eq_ind _ (Ran B J m s));
        [eapply ran_served; [done..|]; rewrite <- Hm1;
         by eapply served_error|].
      path_eq.
    + eapply (eq_ind _ (Ran B J m s));
        [eapply ran_served; [done..|]; rewrite <- Hm1;
         by eapply served_ok|].
      path_eq.
    + eapply (eq_ind _ (Ran B J m s));
        [eapply ran_served; [done..|]; rewrite <- Hm1;
         by eapply served_panic|].
      path_eq.
  - eapply (eq_ind _ (Ran B J m s));
      [eapply ran_served; [done..|]; rewrite <- Hm1;
       by eapply served_forward_panic|].
    path_eq.
Qed.
End RunPaths.

(** ** Properties of the whole run *)

Section Program.
Context `{GoTypes} {S : Type} (B : Backend S) (J : ansible.Codec).
Implicit Types (m : ansible.HelmModule) (s : S) (w : wheelie.Wheelie).

Lemma ForwardTillerPort_forwards w s :
  Forall (forwards w) (calls (wheelie.ForwardTillerPort B w s)).
Proof. run; repeat (apply Forall_cons_2; [done|]); apply Forall_nil_2. Qed.

Lemma ForwardTillerPort_ok w s w' s1 t1 :
  wheelie.ForwardTillerPort B w s = (Some (w', None), s1, t1) ->
  ∃ cl cfg f,
    CallPortforwarderNew (wheelie.TillerNamespace w) cl cfg (Some f) None
      ∈ t1 ∧
    w' = wheelie.setTillerHost w ("127.0.0.1:" +:+ fmt_d (Local f)).
Proof.
  run; intros Heq; simplify_eq. eexists _, _, _. split; [|done].
  repeat first [apply list_elem_of_here | apply list_elem_of_further].
Qed.

(** What every run of the switch looks like. *)
Lemma dispatch_shape state w s :
  let r := dispatch B state w s in
  Forall (λ c, isReconcile c = true) (calls r) ∧
  Forall (λ c, isHelm c = true ->
               callClient c = Some (wheelie.newClient w) ∧
               callRelease c = Some (wheelie.Release w)) (calls r) ∧
  (∀ msg changed err,
     answer r = Some (msg, changed, err) ->
     changed = existsb isSuccessfulMutation (calls r) ∧
     (err ≠ None -> changed = false)) ∧
  (state = ansible.statePresent -> count isDelete (calls r) = 0) ∧
  (state = ansible.stateAbsent ∨ state = ansible.statePurged ->
   count isLoad (calls r) = 0 ∧ count isInstall (calls r) = 0 ∧
   count isUpdate (calls r) = 0 ∧
   Forall (λ c, isDelete c = true ->
                callPurge c
                  = Some (bool_decide (state = ansible.statePurged)))
     (calls r)) ∧
  (state ≠ ansible.statePresent -> state ≠ ansible.stateAbsent ->
   state ≠ ansible.statePurged ->
   r = (Some (EmptyString, false, Some ansible.stateError), s, [])).
Proof.
  unfold dispatch, wheelie.EnsureReleaseAbsent, wheelie.EnsureReleasePurged.
  assert (Hweak : ∀ (t : list Call) (changed : bool) msg err,
            changed = existsb isSuccessfulMutation t ∧
            (err ≠ None -> msg = EmptyString ∧ changed = false) ->
            changed = existsb isSuccessfulMutation t ∧
            (err ≠ (None : option error) -> changed = false)).
  { intros t changed msg err [? Hm]. split; [done|].
    intros Hne. by destruct (Hm Hne). }
  repeat case_bool_decide; subst; cbv zeta.
  all: match goal with
       | |- context [wheelie.EnsureReleasePresent ?b ?x ?y] =>
           destruct (EnsureReleasePresent_shape b x y)
             as (Hr & Hc & Hd & Ha)
       | |- context [wheelie.ensureReleaseAbsent ?b ?x ?p ?y] =>
           destruct (ensureReleaseAbsent_shape b x p y)
             as (Hr & Hc & Hl & Hi & Hu & Hf & Hp & Ha)
       | _ => idtac
       end.
  all: split_and!; try done.
  all: try (intros msg changed err Heq; eapply Hweak; by apply Ha).
  all: try (by intros [?|?]).
  all: try (intros _; by split_and!).
  all: try apply Forall_nil_2.
  intros msg changed err Heq. unfold ret, answer, calls in *.
  simpl in *. by simplify_eq.
Qed.

(** The traces of the two steps of a path that reached the cluster. *)
Lemma forward_trace w s a s1 t1 :
  wheelie.ForwardTillerPort B w s = (a, s1, t1) ->
  Forall (forwards w) t1.
Proof.
  intros Heq. pose proof (ForwardTillerPort_forwards w s) as Hf.
  by rewrite Heq in Hf.
Qed.

Lemma dispatch_trace state w s a s1 t :
  dispatch B state w s = (a, s1, t) ->
  Forall (λ c, isReconcile c = true) t ∧
  Forall (λ c, isHelm c = true ->
               callClient c = Some (wheelie.newClient w) ∧
               callRelease c = Some (wheelie.Release w)) t.
Proof.
  intros Heq. destruct (dispatch_shape state w s) as (Hr & Hc & _).
  by rewrite Heq in Hr, Hc.
Qed.

Lemma dispatch_answer state w s msg changed err s1 t :
  dispatch B state w s = (Some (msg, changed, err), s1, t) ->
  changed = existsb isSuccessfulMutation t ∧
  (err ≠ None -> changed = false).
Proof.
  intros Heq. destruct (dispatch_shape state w s) as (_ & _ & Ha & _).
  rewrite Heq in Ha. by apply (Ha msg changed err).
Qed.

Lemma dispatch_state state w s a s1 t :
  dispatch B state w s = (a, s1, t) ->
  (state = ansible.statePresent -> count isDelete t = 0) ∧
  (state = ansible.stateAbsent ∨ state = ansible.statePurged ->
   count isLoad t = 0 ∧ count isInstall t = 0 ∧ count isUpdate t = 0 ∧
   Forall (λ c, isDelete c = true ->
                callPurge c
                  = Some (bool_decide (state = ansible.statePurged))) t).
Proof.
  intros Heq. destruct (dispatch_shape state w s) as (_ & _ & _ & Hp & Ha & _).
  by rewrite Heq in Hp, Ha.
Qed.

Lemma count_forwards (p : Call -> bool) w t :
  (∀ c, isProvisioning c = true -> p c = false) ->
  Forall (forwards w) t -> count p t = 0.
Proof.
  intros Hp Ht. apply count_none. intros c Hc. apply Hp.
  apply (proj1 (Forall_forall _ _) Ht) in Hc. by destruct c.
Qed.

Lemma count_reconcile (p : Call -> bool) t :
  (∀ c, isReconcile c = true -> p c = false) ->
  Forall (λ c, isReconcile c = true) t -> count p t = 0.
Proof.
  intros Hp Ht. apply count_none. intros c Hc. apply Hp.
  by apply (proj1 (Forall_forall _ _) Ht).
Qed.

(** Splits Run into its paths. *)
Ltac paths m s :=
  destruct (Run_ran B J m s)
    as [args s1 Hargs Hlen
       |prog path s1 text e s2 Hargs Hread
       |prog path s1 text s2 i e Hargs Hread Hparse
       |prog path s1 text s2 i r Hargs Hread Hparse Hs];
  [ | | |
    remember (ansible.setDefaultInputs (ansible.setInput m i))
      as m1 eqn:Hm1;
    assert (Hout : ansible.Output m1 = ansible.Output m)
      by (rewrite Hm1, setDefaultInputs_fields; reflexivity);
    apply (f_equal ansible.Input) in Hm1;
    destruct Hs
      as [s3 t1 Hfwd
         |w e s3 t1 Hfwd
         |w s3 t1 s4 t2 Hfwd Hdis
         |w s3 t1 msg changed e s4 t2 Hfwd Hdis
         |w s3 t1 msg changed s4 t2 Hfwd Hdis];
    pose proof (forward_trace _ _ _ _ _ Hfwd) as Hft;
    try (destruct (dispatch_trace _ _ _ _ _ _ Hdis) as [Hdt Hdc])];
  unfold printing, prepend, answer, calls; cbn [fst snd].

(** Counts in the trace of a path. *)
Ltac counts :=
  rewrite ?count_app;
  repeat match goal with
         | Hft : Forall (forwards ?w) ?t |- context [count ?p ?t] =>
             rewrite (count_forwards p w t)
               by first [assumption | by intros []]
         | Hdt : Forall (λ c, isReconcile c = true) ?t
           |- context [count ?p ?t] =>
             rewrite (count_reconcile p t)
               by first [assumption | by intros []]
         end;
  try reflexivity.

(** X11. Run answers once.  Whenever Run returns, the last thing it did was
    to print one line, the one respondJSON makes of the final output, and
    it printed nothing before; the invocation in that output shows the
    input the module ended with.  When Run panics it has printed
    nothing. *)
Theorem Run_answers_once m s :
  let r := ansible.Run B J m s in
  (∀ m', answer r = Some m' ->
     ∃ pre,
       calls r = pre ++ [CallPrintln (responseLine J (ansible.Output m'))] ∧
       count isPrintln pre = 0 ∧
       ansible.ModuleArgs (ansible.Invocation (ansible.Output m'))
         = ansible.Input m') ∧
  (answer r = None -> count isPrintln (calls r) = 0).
Proof.
  cbv zeta. paths m s.
  all: split; [intros m' [= <-] | intros [=]].
  all: try (eexists; split_and!;
            [rewrite ?app_assoc; reflexivity | counts | reflexivity]).
  all: counts.
Qed.

(** Splits the membership of a call in the trace of a path. *)
Ltac in_path Hc :=
  unfold printing, prepend, calls in Hc; cbn [fst snd] in Hc;
  rewrite ?elem_of_app, ?elem_of_cons, ?elem_of_nil in Hc;
  destruct_or?; try done;
  repeat match goal with
         | Heq : ?c = _ |- _ => is_var c; subst c
         end;
  try done.

(** X12. The failures of the input.  With other than two arguments, with a
    file that cannot be read, or with a text that cannot be parsed, Run
    answers failed with the message of that step, having made no other
    call; after a parse failure the input is as Unmarshal left it, without
    the defaults. *)
Theorem Run_input_failures m s :
  let r := ansible.Run B J m s in
  let answered m' t :=
    answer r = Some m' ∧
    calls r = t ++ [CallPrintln (responseLine J (ansible.Output m'))] in
  (∀ args s1,
     os_Args B s = (args, s1) -> length args ≠ 2 ->
     answered
       (failed m ("expected 2 arguments to module, got " +:+
                  fmt_d (Z.of_nat (length args))))
       [CallArgs args]) ∧
  (∀ prog path s1 text e s2,
     os_Args B s = ([prog; path], s1) ->
     ioutil_ReadFile B path s1 = (text, Some e, s2) ->
     answered (failed m ("error reading input: " +:+ e))
       [CallArgs [prog; path]; CallReadFile path text (Some e)]) ∧
  (∀ prog path s1 text s2 i e,
     os_Args B s = ([prog; path], s1) ->
     ioutil_ReadFile B path s1 = (text, None, s2) ->
     ansible.json_Unmarshal J text (ansible.Input m) = (i, Some e) ->
     answered
       (failed (ansible.setInput m i) ("unable to parse input: " +:+ e))
       [CallArgs [prog; path]; CallReadFile path text None]).
Proof.
  cbv zeta. split_and!.
  - intros args' s1' Hargs' Hlen'. paths m s;
      rewrite Hargs in Hargs'; simplify_eq; done.
  - intros prog' path' s1' text' e' s2' Hargs' Hread'. paths m s;
      rewrite Hargs in Hargs'; simplify_eq; try done;
      rewrite Hread in Hread'; by simplify_eq.
  - intros prog' path' s1' text' s2' i' e' Hargs' Hread' Hparse'. paths m s;
      rewrite Hargs in Hargs'; simplify_eq; try done;
      rewrite Hread in Hread'; simplify_eq;
      rewrite Hparse in Hparse'; by simplify_eq.
Qed.

Lemma forward_error w s a s1 t1 c :
  wheelie.ForwardTillerPort B w s = (a, s1, t1) ->
  c ∈ t1 -> errorOf c ≠ None ->
  ∃ w' e, a = Some (w', Some e).
Proof.
  run; intros Heq Hc Hne; simplify_eq; in_trace Hc; by eexists _, _.
Qed.

(** X13. A failed set-up stops Run.  If a call that sets up the connection to
    tiller comes back with an error, Run loads no chart, makes no call to
    tiller and does not run the differ, whatever the state asked for, and
    answers failed with a message that starts with "unable to forward
    tiller port: ". *)
Theorem Run_stops_when_setup_fails m s c :
  let r := ansible.Run B J m s in
  c ∈ calls r -> isProvisioning c = true -> errorOf c ≠ None ->
  count isReconcile (calls r) = 0 ∧
  ∃ m' e,
    answer r = Some m' ∧
    ansible.Failed (ansible.Output m') = true ∧
    ansible.Msg (ansible.Output m') = "unable to forward tiller port: " +:+ e.
Proof.
  cbv zeta. paths m s; intros Hc Hp Hne; in_path Hc.
  all: try (destruct (forward_error _ _ _ _ _ _ Hfwd ltac:(eassumption) Hne)
              as (? & ? & [=]); fail).
  all: try (apply (proj1 (Forall_forall _ _) Hdt) in Hc; by destruct c).
  split; [counts|]. by eexists _, _.
Qed.

Lemma existsb_count (p : Call -> bool) (t : list Call) :
  count p t = 0 -> existsb p t = false.
Proof.
  unfold count. induction t as [|c t IH]; simpl; [done|].
  destruct (p c); simpl; [done|]. apply IH.
Qed.

Lemma existsb_app_false (p : Call -> bool) (t1 t2 : list Call) :
  existsb p t1 = false -> existsb p (t1 ++ t2) = existsb p t2.
Proof. intros Ht. by rewrite existsb_app, Ht. Qed.

Lemma forwards_no (p : Call -> bool) w t :
  (∀ c, isProvisioning c = true -> p c = false) ->
  Forall (forwards w) t -> existsb p t = false.
Proof. intros Hp Ht. apply existsb_count. by eapply count_forwards. Qed.

(** X14. What the module reports.  Starting from a fresh output, a Run that
    returns reports changed exactly when an install, upgrade or delete
    call ran and came back without an error; and an answer marked failed
    is never marked changed. *)
Theorem Run_reports_changed m s m' :
  let r := ansible.Run B J m s in
  ansible.Changed (ansible.Output m) = false ->
  ansible.Failed (ansible.Output m) = false ->
  answer r = Some m' ->
  (ansible.Changed (ansible.Output m') = true ↔
   ∃ c, c ∈ calls r ∧ isSuccessfulMutation c = true) ∧
  (ansible.Failed (ansible.Output m') = true ->
   ansible.Changed (ansible.Output m') = false).
Proof.
  cbv zeta. intros Hch Hfl. rewrite some_call_existsb.
  paths m s; intros [= <-]; cbn; rewrite ?Hout, ?Hch, ?Hfl.
  all: try done.
  all: rewrite <- ?app_assoc, ?(existsb_app_false _ [_; _]) by done.
  all: rewrite (existsb_app_false _ t1)
         by (eapply forwards_no; [by intros []|eassumption]).
  all: try done.
  all: destruct (dispatch_answer _ _ _ _ _ _ _ _ Hdis) as [Hex Hno];
       rewrite existsb_app, <- Hex; cbn; rewrite orb_false_r.
  - by rewrite Hno.
  - done.
Qed.

(** The fields of the normalized input that Run hands on. *)
Lemma normalized_fields m i :
  let i1 := ansible.Input (ansible.setDefaultInputs (ansible.setInput m i)) in
  ansible.Kubeconfig i1 = ansible.Kubeconfig i ∧
  ansible.Release i1 = ansible.Release i ∧
  ansible.TillerNamespace i1 =
    (if bool_decide (ansible.TillerNamespace i = EmptyString)
     then "kube-system" else ansible.TillerNamespace i) ∧
  ansible.State i1 =
    (if bool_decide (ansible.State i = EmptyString)
     then "present" else ansible.State i).
Proof. cbv zeta. rewrite setDefaultInputs_fields. by fields. Qed.

(** Identifies the input of a path with the one of the hypotheses. *)
Ltac same_input :=
  repeat match goal with
         | Ha : ?f = _, Hb : ?f = _ |- _ =>
             rewrite Ha in Hb; simplify_eq
         end;
  try done.

(** X15. The set-up follows the input.  When the input was read and parsed,
    the kube configuration is asked for with an empty context and the
    kubeconfig of the input, and the tunnel is opened in the tiller
    namespace of the input, or in "kube-system" when the input names
    none. *)
Theorem Run_sets_up_from_the_input m s program file s' content s'' input
    c :
  os_Args B s = ([program; file], s') ->
  ioutil_ReadFile B file s' = (content, None, s'') ->
  ansible.json_Unmarshal J content (ansible.Input m) = (input, None) ->
  c ∈ calls (ansible.Run B J m s) ->
  match c with
  | CallClientConfig context kubeconfig _ _ =>
      context = EmptyString ∧ kubeconfig = ansible.Kubeconfig input
  | CallPortforwarderNew namespace _ _ _ _ =>
      namespace =
        if bool_decide (ansible.TillerNamespace input = EmptyString)
        then "kube-system" else ansible.TillerNamespace input
  | _ => True
  end.
Proof.
  intros Hargs' Hread' Hparse'.
  paths m s; same_input; intros Hc; in_path Hc.
  all: match goal with
       | Hp : ansible.json_Unmarshal J _ _ = (?j, None) |- _ =>
           destruct (normalized_fields m j) as (Hk & _ & Htn & _);
           rewrite <- Hm1 in Hk, Htn
       end.
  all: try (apply (proj1 (Forall_forall _ _) Hft) in Hc;
            destruct c; try done; cbn in Hc;
            rewrite <- ?Hk, <- ?Htn; exact Hc).
  all: apply (proj1 (Forall_forall _ _) Hdt) in Hc; by destruct c.
Qed.

(** X16. Tiller is reached through the tunnel.  Every call Run makes to
    tiller goes through a client for 127.0.0.1 at the local port of a
    tunnel that was opened without an error earlier in the run, with a
    connect timeout of 300, and is about the release the input names. *)
Theorem Run_calls_tiller_through_the_tunnel m s program file s' content s''
    input c :
  os_Args B s = ([program; file], s') ->
  ioutil_ReadFile B file s' = (content, None, s'') ->
  ansible.json_Unmarshal J content (ansible.Input m) = (input, None) ->
  c ∈ calls (ansible.Run B J m s) -> isHelm c = true ->
  callRelease c = Some (ansible.Release input) ∧
  ∃ namespace client config tunnel,
    CallPortforwarderNew namespace client config (Some tunnel) None
      ∈ calls (ansible.Run B J m s) ∧
    callClient c =
      Some (helm.NewClient
              [helm.Host ("127.0.0.1:" +:+ fmt_d (Local tunnel));
               helm.ConnectTimeout 300]).
Proof.
  intros Hargs' Hread' Hparse'.
  paths m s; same_input; intros Hc Hh; in_path Hc.
  all: match goal with
       | Hp : ansible.json_Unmarshal J _ _ = (?j, None) |- _ =>
           destruct (normalized_fields m j) as (_ & Hrel & _ & _);
           rewrite <- Hm1 in Hrel
       end.
  all: try (apply (proj1 (Forall_forall _ _) Hft) in Hc; by destruct c).
  all: destruct (ForwardTillerPort_ok _ _ _ _ _ Hfwd)
         as (cl & cfg & f & Hin & ->).
  all: destruct (proj1 (Forall_forall _ _) Hdc c Hc Hh) as [Hcl Hre].
  all: split; [by rewrite Hre, <- Hrel|].
  all: exists (wheelie.TillerNamespace (moduleWheelie (ansible.Input m1))),
         cl, cfg, f; split; [|exact Hcl].
  all: rewrite !elem_of_app, !elem_of_cons; tauto.
Qed.

(** X17. The state decides what Run may do.  With state "present" (or none)
    Run deletes nothing; with "absent" or "purged" it loads no chart,
    installs and upgrades nothing, and a delete it makes purges exactly
    when the state is "purged". *)
Theorem Run_follows_the_state m s program file s' content s'' input :
  os_Args B s = ([program; file], s') ->
  ioutil_ReadFile B file s' = (content, None, s'') ->
  ansible.json_Unmarshal J content (ansible.Input m) = (input, None) ->
  let t := calls (ansible.Run B J m s) in
  (ansible.State input = EmptyString ∨
   ansible.State input = ansible.statePresent ->
   count isDelete t = 0) ∧
  (ansible.State input = ansible.stateAbsent ∨
   ansible.State input = ansible.statePurged ->
   count isLoad t = 0 ∧ count isInstall t = 0 ∧ count isUpdate t = 0 ∧
   ∀ c, c ∈ t -> isDelete c = true ->
     callPurge c
       = Some (bool_decide (ansible.State input = ansible.statePurged))).
Proof.
  intros Hargs' Hread' Hparse'. cbv zeta.
  paths m s; same_input.
  all: match goal with
       | Hp : ansible.json_Unmarshal J _ _ = (?j, None) |- _ =>
           destruct (normalized_fields m j) as (_ & _ & _ & Hst);
           rewrite <- Hm1 in Hst
       end.
  all: split; intros Hs.
  all: match type of Hst with
       | ?st = _ =>
           first [ assert (Hst' : st = ansible.statePresent)
                     by (rewrite Hst; destruct Hs as [-> | ->]; done)
                 | assert (Hst' : st = ansible.State i)
                     by (rewrite Hst; destruct Hs as [-> | ->]; done) ]
       end.
  all: try (destruct (dispatch_state _ _ _ _ _ _ Hdis) as [Hp Ha]).
  all: try (specialize (Hp Hst'); rewrite ?count_app, Hp; counts).
  all: try (rewrite Hst' in Ha; destruct (Ha Hs) as (Hl & Hi & Hu & Hf);
            clear Ha).
  all: try counts.
  all: split_and!; try (rewrite ?count_app, ?Hl, ?Hi, ?Hu; counts).
  all: intros c Hc Hd; in_path Hc.
  all: try (apply (proj1 (Forall_forall _ _) Hft) in Hc; by destruct c).
  all: by apply (proj1 (Forall_forall _ _) Hf).
Qed.

End Program.

(** ** Normalization, again *)

Section Defaults.
Context `{GoTypes}.

(** X18. Normalizing twice changes nothing more: setDefaultInputs leaves a
    module it has already normalized as it is. *)
Theorem setDefaultInputs_idempotent (m : ansible.HelmModule) :
  ansible.setDefaultInputs (ansible.setDefaultInputs m)
  = ansible.setDefaultInputs m.
Proof.
  rewrite (setDefaultInputs_fields (ansible.setDefaultInputs m)).
  rewrite !setDefaultInputs_fields.
  destruct m as [[kc ch cv vals nh ncrd tmo rel ns st tns wt] o].
  cbv zeta. fields. f_equal. f_equal.
  - by destruct vals.
  - destruct (bool_decide_reflect (tmo = 0%Z)) as [->|Hne]; [done|].
    by rewrite bool_decide_eq_false_2.
  - destruct (bool_decide_reflect (ns = EmptyString)) as [->|Hne]; [done|].
    by rewrite bool_decide_eq_false_2.
  - destruct (bool_decide_reflect (st = EmptyString)) as [->|Hne]; [done|].
    by rewrite bool_decide_eq_false_2.
  - destruct (bool_decide_reflect (tns = EmptyString)) as [->|Hne]; [done|].
    by rewrite bool_decide_eq_false_2.
Qed.

End Defaults.

(** ** The program on the scripted backend *)

Module examples.
Import script.
#[local] Existing Instance script.types.






(** C8 as stated fails: with the wait flag set in the struct, the trial
    upgrade goes out without the wait flag and the committing upgrade with
    it. *)
Lemma trial_does_not_wait :
  let r := wheelie.EnsureReleasePresent (backend driftThenUpgraded) web tt in
  ∃ cl n p os1 r1 e1 os2 r2 e2,
    CallUpdate cl n p os1 r1 e1 ∈ calls r ∧
    CallUpdate cl n p os2 r2 e2 ∈ calls r ∧
    isTrial (CallUpdate cl n p os1 r1 e1) = true ∧
    isPlainUpgrade (CallUpdate cl n p os2 r2 e2) = true ∧
    helm.updWait (helm.updateRequest os1) = false ∧
    helm.updWait (helm.updateRequest os2) = true.
Proof.
  eexists (wheelie.newClient web), "web", "/charts/web",
    [helm.UpdateValueOverrides "{}"; helm.UpgradeDisableHooks false;
     helm.UpgradeTimeout 300; helm.UpgradeDryRun true],
    _, _,
    [helm.UpdateValueOverrides "{}"; helm.UpgradeDisableHooks false;
     helm.UpgradeTimeout 300; helm.UpgradeWait true],
    _, _.
  split_and!; [called | called | reflexivity..].
Defined.

(** C8, as the code has it, on the scripted backend. *)
Lemma trial_and_committing_upgrade_inputs_witness :
  let trial := helm.updateRequest
    [helm.UpdateValueOverrides "{}"; helm.UpgradeDisableHooks false;
     helm.UpgradeTimeout 300; helm.UpgradeDryRun true] in
  let real := helm.updateRequest
    [helm.UpdateValueOverrides "{}"; helm.UpgradeDisableHooks false;
     helm.UpgradeTimeout 300; helm.UpgradeWait true] in
  helm.updValues trial = helm.updValues real ∧
  helm.updDisableHooks trial = helm.updDisableHooks real ∧
  helm.updTimeout trial = helm.updTimeout real ∧
  helm.updForce trial = helm.updForce real ∧
  helm.updDryRun trial = true ∧ helm.updDryRun real = false ∧
  helm.updWait trial = false ∧ helm.updWait real = wheelie.Wait web.
Proof.
  destruct (trial_and_committing_upgrade_inputs
              (backend driftThenUpgraded) web tt
              (wheelie.newClient web) "web" "/charts/web"
              [helm.UpdateValueOverrides "{}"; helm.UpgradeDisableHooks false;
               helm.UpgradeTimeout 300; helm.UpgradeDryRun true]
              (trial driftThenUpgraded).1 None
              (wheelie.newClient web) "web" "/charts/web"
              [helm.UpdateValueOverrides "{}"; helm.UpgradeDisableHooks false;
               helm.UpgradeTimeout 300; helm.UpgradeWait true]
              (commit driftThenUpgraded).1 None)
    as (_ & _ & _ & _ & _ & Hrest).
  - called.
  - called.
  - reflexivity.
  - reflexivity.
  - exact Hrest.
Defined.

(** C6 on the scripted backend: tiller is unreachable when the release is
    read, the error is not the not-found one, and neither method returns:
    both panic on the nil response, after the read and before any other
    call. *)
Theorem read_error_panics :
  wheelie.isNotFound (backend unreachable) (Some unavailable) "web" = false
  ∧ wheelie.EnsureReleasePresent (backend unreachable) web tt =
    (None, tt,
     [CallLoad "/charts/web" (Some "/charts/web") None;
      CallReleaseContent (wheelie.newClient web) "web" None
        (Some unavailable)]) ∧
  wheelie.EnsureReleaseAbsent (backend unreachable) web tt =
    (None, tt,
     [CallReleaseContent (wheelie.newClient web) "web" None
        (Some unavailable)]) ∧
  wheelie.EnsureReleasePurged (backend unreachable) web tt =
    (None, tt,
     [CallReleaseContent (wheelie.newClient web) "web" None
        (Some unavailable)]).
Proof. split_and!; reflexivity. Qed.

(** C7 on the scripted backend. *)
Lemma one_action_per_reconciliation_witness :
  let r := wheelie.EnsureReleasePresent (backend driftThenUpgraded) web tt in
  count isMutation (calls r) ≤ 1 ∧ count isTrial (calls r) ≤ 1 ∧
  ∃ c, c ∈ calls r ∧ isSuccessfulMutation c = true.
Proof.
  destruct (one_action_per_reconciliation (backend driftThenUpgraded) web
              false tt
              (wheelie.EnsureReleasePresent (backend driftThenUpgraded)
                 web tt))
    as (_ & Hmut & Htrial & Hans).
  - by left.
  - split_and!; [exact Hmut | exact Htrial |].
    destruct (Hans "Upgrade complete" true None) as (Hiff & _ & _);
      [reflexivity|].
    by apply Hiff.
Defined.

(** C10 on the scripted backend: the forwarder listens on port 44134. *)
Lemma ForwardTillerPort_frame_witness :
  ∃ w', answer (wheelie.ForwardTillerPort (backend driftThenUpgraded) web tt)
          = Some (w', None) ∧
        wheelie.TillerHost w' = "127.0.0.1:44134" ∧
        wheelie.Release w' = "web" ∧
        wheelie.TillerNamespace w' = "kube-system".
Proof.
  eexists. split; [reflexivity|].
  destruct (ForwardTillerPort_frame (backend driftThenUpgraded) web tt
              (wheelie.setTillerHost web "127.0.0.1:44134") None)
    as (Hok & _ & Hframe); [reflexivity|].
  destruct (Hok eq_refl) as (cl & cfg & f & Hin & Hhost).
  split_and!; [reflexivity | apply Hframe..].
Defined.

(** C5 as stated fails: the input asks for the state "destroyed", and the
    three calls that set up the connection to tiller are made before the
    module answers with the error about the state. *)
Lemma provisioning_before_state_error :
  let r := ansible.Run (backend destroyed) (codec destroyed) module tt in
  calls r =
    [CallArgs ["helm"; "/tmp/args.json"];
     CallReadFile "/tmp/args.json" "{}" None;
     CallClientConfig EmptyString "/root/.kube/config" (Some "config") None;
     CallNewForConfig (Some "config") (Some "client") None;
     CallPortforwarderNew "kube-system" (Some "client") (Some "config")
       (Some {| Local := 44134 |}) None;
     CallPrintln ansible.stateError] ∧
  count isProvisioning (calls r) = 3 ∧
  ∃ m', answer r = Some m' ∧
        ansible.State (ansible.Input m') = "destroyed" ∧
        ansible.Failed (ansible.Output m') = true ∧
        ansible.Msg (ansible.Output m') = ansible.stateError.
Proof.
  split_and!; [reflexivity | reflexivity |].
  eexists. split_and!; reflexivity.
Defined.

(** C5, as the code has it, on the scripted backend. *)
Lemma Run_invalid_state_witness :
  let r := ansible.Run (backend destroyed) (codec destroyed) module tt in
  count isLoad (calls r) = 0 ∧ count isReleaseContent (calls r) = 0 ∧
  count isMutation (calls r) = 0 ∧ count isUpdate (calls r) = 0 ∧
  1 ≤ count isProvisioning (calls r).
Proof.
  destruct (Run_invalid_state (backend destroyed) (codec destroyed) module
              tt "helm" "/tmp/args.json" tt "{}" tt (input "destroyed"))
    as (Hload & Hread & Hmut & Hupd & Hprov & _);
    try reflexivity; try (vm_compute; discriminate).
  by split_and!.
Defined.


(** X3 on the scripted backend: the read of the release goes through the
    client of the struct and names the release "web". *)
Lemma calls_are_about_the_release_witness :
  let c := CallReleaseContent (wheelie.newClient web) "web"
             (deployed "Install complete").1 None in
  callClient c =
    Some (helm.NewClient [helm.Host EmptyString; helm.ConnectTimeout 300]) ∧
  callRelease c = Some "web".
Proof.
  apply (calls_are_about_the_release (backend driftThenUpgraded) web false tt
           _ _ (or_introl eq_refl)); [called | reflexivity].
Defined.

(** X4 on the scripted backend: the error of the failed upgrade is the one
    returned. *)
Lemma errors_are_returned_verbatim_witness :
  let r := wheelie.EnsureReleasePresent (backend driftThenFailed) web tt in
  ∃ c, last (calls r) = Some c ∧
       errorOf c = Some "timed out waiting for the condition".
Proof.
  destruct (errors_are_returned_verbatim (backend driftThenFailed) web false
              tt _ EmptyString false "timed out waiting for the condition"
              (or_introl eq_refl) eq_refl)
    as (_ & _ & [Hm | Hc]); [discriminate Hm | exact Hc].
Defined.

(** X5 on the scripted backend: the differ is given the manifest that is
    deployed and the one of the trial. *)
Lemma differ_compares_current_with_trial_witness :
  let r := wheelie.EnsureReleasePresent (backend driftThenUpgraded) web tt in
  ∃ err os cur trial,
    CallReleaseContent (wheelie.newClient web) "web"
      (Some {| rls.Release := Some cur |}) err ∈ calls r ∧
    CallUpdate (wheelie.newClient web) "web" "/charts/web" os
      (Some {| rls.Release := Some trial |}) None ∈ calls r ∧
    helm.updDryRun (helm.updateRequest os) = true ∧
    ({[ "web" := "replicas: 3" ]} : Manifests)
      = manifest_ParseRelease (backend driftThenUpgraded) cur ∧
    ({[ "web" := "replicas: 3" ]} : Manifests)
      = manifest_ParseRelease (backend driftThenUpgraded) trial.
Proof.
  apply (differ_compares_current_with_trial (backend driftThenUpgraded) web
           tt {[ "web" := "replicas: 3" ]} {[ "web" := "replicas: 3" ]}
           true).
  called.
Defined.

(** X6 on the scripted backend: tiller answers every call with a whole
    release, and the method returns. *)
Lemma well_formed_answers_give_a_result_witness :
  is_Some (answer
             (wheelie.EnsureReleasePresent (backend driftThenUpgraded) web
                tt)).
Proof.
  apply (well_formed_answers_give_a_result (backend driftThenUpgraded) web
           false tt _ (or_introl eq_refl)).
  - intros c Hc _. apply list_elem_of_In in Hc. vm_compute in Hc.
    destruct_or?; try done; subst c; by left.
  - intros c Hc. apply list_elem_of_In in Hc. vm_compute in Hc.
    destruct_or?; try done; subst c; unfold wellFormed; intros Hh _;
      vm_compute in Hh; try discriminate Hh; vm_compute; by eexists.
Defined.

(** X7 on the scripted backend: the chart version, the kubeconfig, the
    context and the tiller namespace make no difference to the method. *)
Lemma unread_fields_witness :
  wheelie.EnsureReleasePresent (backend driftThenUpgraded) web
  = wheelie.EnsureReleasePresent (backend driftThenUpgraded) pinned.
Proof.
  by apply (unread_fields (backend driftThenUpgraded) web pinned false).
Defined.

(** X8 on the scripted backend: the forwarder fails, after the two steps
    before it went through, and its error is returned as it is. *)
Lemma ForwardTillerPort_stops_at_failure_witness :
  ∃ cfg cl f,
    calls (wheelie.ForwardTillerPort (backend tillerDown) web tt) =
      [CallClientConfig EmptyString "/root/.kube/config" cfg None;
       CallNewForConfig cfg cl None;
       CallPortforwarderNew "kube-system" cl cfg f
         (Some "could not find tiller")].
Proof.
  destruct (ForwardTillerPort_stops_at_failure (backend tillerDown) web tt
              web "could not find tiller" eq_refl)
    as [(cfg & e0 & Hc & _) | [(cfg & cl & e0 & Hc & _) | Hc]];
    [discriminate Hc | discriminate Hc | exact Hc].
Defined.

(** X13 on the scripted backend: with no tunnel nothing is reconciled. *)
Lemma Run_stops_when_setup_fails_witness :
  let r := ansible.Run (backend tillerDown) (codec tillerDown) module tt in
  count isReconcile (calls r) = 0 ∧
  ∃ m' e,
    answer r = Some m' ∧
    ansible.Failed (ansible.Output m') = true ∧
    ansible.Msg (ansible.Output m') = "unable to forward tiller port: " +:+ e.
Proof.
  apply (Run_stops_when_setup_fails (backend tillerDown) (codec tillerDown)
           module tt
           (@CallPortforwarderNew types "kube-system" (Some "client")
              (Some "config") None (Some "could not find tiller")));
    [called | reflexivity | done].
Defined.

(** X14 on the scripted backend: the upgrade went through and the module
    reports changed. *)
Lemma Run_reports_changed_witness :
  let r :=
    ansible.Run (backend driftThenUpgraded) (codec driftThenUpgraded) module
      tt in
  ∃ m', answer r = Some m' ∧
        ansible.Changed (ansible.Output m') = true ∧
        ansible.Failed (ansible.Output m') = false ∧
        ∃ c, c ∈ calls r ∧ isSuccessfulMutation c = true.
Proof.
  eexists. split; [reflexivity|].
  destruct (Run_reports_changed (backend driftThenUpgraded)
              (codec driftThenUpgraded) module tt _ eq_refl eq_refl eq_refl)
    as [[Hto _] _].
  split_and!; [reflexivity | reflexivity | by apply Hto].
Defined.

(** X15 on the scripted backend: the input names no tiller namespace and
    the tunnel is opened in "kube-system". *)
Lemma Run_sets_up_from_the_input_witness :
  let r :=
    ansible.Run (backend driftThenUpgraded) (codec driftThenUpgraded) module
      tt in
  CallPortforwarderNew "kube-system" (Some "client") (Some "config")
    (Some {| Local := 44134 |}) None ∈ calls r ∧
  "kube-system" =
    if bool_decide
         (ansible.TillerNamespace (input "present") = EmptyString)
    then "kube-system" else ansible.TillerNamespace (input "present").
Proof.
  split; [called|].
  apply (Run_sets_up_from_the_input (backend driftThenUpgraded)
           (codec driftThenUpgraded) module tt "helm" "/tmp/args.json" tt
           "{}" tt (input "present")
           (@CallPortforwarderNew types "kube-system" (Some "client")
              (Some "config") (Some {| Local := 44134 |}) None));
    [reflexivity.. | called].
Defined.

(** X16 on the scripted backend: the release is read through the tunnel
    at port 44134. *)
Lemma Run_calls_tiller_through_the_tunnel_witness :
  let r :=
    ansible.Run (backend driftThenUpgraded) (codec driftThenUpgraded) module
      tt in
  let c :=
    CallReleaseContent
      (helm.NewClient [helm.Host "127.0.0.1:44134";
                       helm.ConnectTimeout 300])
      "web" (deployed "Install complete").1 None in
  callRelease c = Some (ansible.Release (input "present")) ∧
  ∃ namespace client config tunnel,
    CallPortforwarderNew namespace client config (Some tunnel) None
      ∈ calls r ∧
    callClient c =
      Some (helm.NewClient
              [helm.Host ("127.0.0.1:" +:+ fmt_d (Local tunnel));
               helm.ConnectTimeout 300]).
Proof.
  apply (Run_calls_tiller_through_the_tunnel (backend driftThenUpgraded)
           (codec driftThenUpgraded) module tt "helm" "/tmp/args.json" tt
           "{}" tt (input "present"));
    [reflexivity.. | called | reflexivity].
Defined.

(** X17 on the scripted backend: asked for "absent", Run loads, installs
    and upgrades nothing. *)
Lemma Run_follows_the_state_witness :
  let t :=
    calls (ansible.Run (backend deployedThenDeleted)
             (codec deployedThenDeleted) module tt) in
  count isLoad t = 0 ∧ count isInstall t = 0 ∧ count isUpdate t = 0.
Proof.
  destruct (Run_follows_the_state (backend deployedThenDeleted)
              (codec deployedThenDeleted) module tt "helm" "/tmp/args.json"
              tt "{}" tt (input "absent") eq_refl eq_refl eq_refl)
    as [_ Ha].
  destruct (Ha (or_introl eq_refl)) as (? & ? & ? & _). by split_and!.
Defined.

End examples.
